(** * Bitbucket Cloud pull-request client ([pkg/bbcloud/pullrequests.go])

    A shallow embedding of the resource client layer: the five public
    operations [ListPullRequests], [GetPullRequest], [CreatePullRequest],
    [UpdatePullRequest] and [CommentPullRequest], their input validation,
    the request bodies they build and the page walk of the listing.

    Conventions of the embedding.
    - Go [string] is a byte string: Rocq [string].
    - Go [int] is [Z].  The code only compares, prints and slices with its
      integers (no arithmetic), so no wrap-around can arise.
    - Go [map[string]any] request bodies are [gmap string any].
    - A Go [(value, error)] result is [Result]; errors built by the package
      with [fmt.Errorf] are [Errorf msg], errors handed back by a
      collaborator (transport, [url.Parse]) are [Foreign].
    - Network effects are explicit: every operation is a function of the
      [NetState] (the remote world and the log of requests sent so far).
    - The [for path != empty] loop of the listing may run forever against a
      server whose next-references never end; it is a fixpoint on a fuel
      argument, [None] meaning that the fuel ran out. *)

From Stdlib Require Import ZArith String Ascii List Lia DecimalString.
From stdpp Require Import gmap strings list fin_maps.

#[local] Set Warnings "-register-all".
#[local] Open Scope Z_scope.

(* ===================================================================== *)
(** ** Go standard library functions used by the package *)
(* ===================================================================== *)

Definition byte_of (c : ascii) : N := N_of_ascii c.

Module fmt.
(** [%d] of [fmt.Sprintf]: decimal digits, a leading [-] when negative. *)
Definition itoa (z : Z) : string := NilZero.string_of_int (Z.to_int z).
End fmt.

Module strings.
(** The ASCII part of [unicode.IsSpace]: tab, LF, VT, FF, CR, space. *)
Definition asciiSpace (c : ascii) : bool :=
  let n := byte_of c in
  ((9 <=? n) && (n <=? 13) || (n =? 32))%N.

(** Two-byte UTF-8 white space: U+0085 and U+00A0. *)
Definition space2 (c d : ascii) : bool :=
  ((byte_of c =? 194) && ((byte_of d =? 133) || (byte_of d =? 160)))%N.

(** Three-byte UTF-8 white space: U+1680, U+2000..U+200A, U+2028,
    U+2029, U+202F, U+205F and U+3000. *)
Definition space3 (c d e : ascii) : bool :=
  let '(c, d, e) := (byte_of c, byte_of d, byte_of e) in
  ((c =? 225) && (d =? 154) && (e =? 128)
   || (c =? 226) && (d =? 128)
      && ((128 <=? e) && (e <=? 138) || (e =? 168) || (e =? 169) || (e =? 175))
   || (c =? 226) && (d =? 129) && (e =? 159)
   || (c =? 227) && (d =? 128) && (e =? 128))%N.

(** [strings.TrimLeftFunc(s, unicode.IsSpace)]. *)
Fixpoint trimLeft (s : string) : string :=
  match s with
  | EmptyString => EmptyString
  | String c r =>
      if asciiSpace c then trimLeft r else
      match r with
      | EmptyString => s
      | String d r2 =>
          if space2 c d then trimLeft r2 else
          match r2 with
          | EmptyString => s
          | String e r3 => if space3 c d e then trimLeft r3 else s
          end
      end
  end.

(** The same scan from the end, on the reversed byte sequence (the
    encodings are matched last byte first). *)
Fixpoint trimLeftRev (s : string) : string :=
  match s with
  | EmptyString => EmptyString
  | String e r =>
      if asciiSpace e then trimLeftRev r else
      match r with
      | EmptyString => s
      | String d r2 =>
          if space2 d e then trimLeftRev r2 else
          match r2 with
          | EmptyString => s
          | String c r3 => if space3 c d e then trimLeftRev r3 else s
          end
      end
  end.

Definition trimRight (s : string) : string :=
  String.rev (trimLeftRev (String.rev s)).

(** [strings.TrimSpace]: leading and trailing Unicode white space removed. *)
Definition TrimSpace (s : string) : string := trimRight (trimLeft s).

(** [strings.Join]. *)
Fixpoint Join (elems : list string) (sep : string) : string :=
  match elems with
  | [] => ""
  | [e] => e
  | e :: rest => e +:+ sep +:+ Join rest sep
  end.
End strings.

Module url.
Inductive encoding := encodePathSegment | encodeQueryComponent.

Definition isAlnum (c : ascii) : bool :=
  let n := byte_of c in
  ((48 <=? n) && (n <=? 57) || (65 <=? n) && (n <=? 90)
   || (97 <=? n) && (n <=? 122))%N.

Definition inBytes (c : ascii) (l : list N) : bool :=
  existsb (N.eqb (byte_of c)) l.

(** [url.shouldEscape] for the two modes the package uses. *)
Definition shouldEscape (c : ascii) (mode : encoding) : bool :=
  if isAlnum c then false
  else if inBytes c [45; 95; 46; 126]%N then false      (* - _ . ~ *)
  else if inBytes c [36; 38; 43; 44; 47; 58; 59; 61; 63; 64]%N
       (* $ & + , / : ; = ? @ *)
  then match mode with
       | encodePathSegment => inBytes c [47; 59; 44; 63]%N  (* / ; , ? *)
       | encodeQueryComponent => true
       end
  else true.

Definition upperhex (n : N) : ascii :=
  ascii_of_N (if (n <? 10)%N then 48 + n else 55 + n)%N.

Fixpoint escape (s : string) (mode : encoding) : string :=
  match s with
  | EmptyString => EmptyString
  | String c r =>
      if shouldEscape c mode then
        match mode with
        | encodeQueryComponent =>
            if (byte_of c =? 32)%N then String "+" (escape r mode)
            else String "%" (String (upperhex (byte_of c / 16))
                              (String (upperhex (byte_of c mod 16)) (escape r mode)))
        | encodePathSegment =>
            String "%" (String (upperhex (byte_of c / 16))
                         (String (upperhex (byte_of c mod 16)) (escape r mode)))
        end
      else String c (escape r mode)
  end.

Definition PathEscape (s : string) : string := escape s encodePathSegment.
Definition QueryEscape (s : string) : string := escape s encodeQueryComponent.
End url.

(* ===================================================================== *)
(** ** Errors, dynamic values and the data model *)
(* ===================================================================== *)

(** A Go [error].  [Errorf msg] is an error the package itself builds with
    [fmt.Errorf] (all of them are validation errors); [Foreign] is an error
    returned by a collaborator and propagated unchanged. *)
Inductive error : Type :=
| Errorf (msg : string)
| Foreign (detail : string).

Inductive Result (A : Type) : Type :=
| Ok (a : A)
| Err (e : error).
Arguments Ok {A} a.
Arguments Err {A} e.

(** What a collaborator hands back: a value, or its own error. *)
Inductive Outcome (T : Type) : Type :=
| Success (t : T)
| Failure (detail : string).
Arguments Success {T} t.
Arguments Failure {T} detail.

(** An error of a collaborator is propagated as it is. *)
Definition propagate {T : Type} (o : Outcome T) : Result T :=
  match o with
  | Success t => Ok t
  | Failure detail => Err (Foreign detail)
  end.

(** The dynamic values the package stores in a [map[string]any]. *)
Inductive any : Type :=
| AString (s : string)
| AInt (z : Z)
| ABool (b : bool)
| AMap (m : gmap string any)                     (* map[string]any *)
| AStringMap (m : gmap string string)            (* map[string]string *)
| AStringMaps (l : list (gmap string string)).   (* []map[string]string *)

Record pr_author := { DisplayName : string; Username : string }.
Record pr_source :=
  { src_Branch : string; src_Commit : string; src_Repository : string }.
Record pr_destination := { dst_Branch : string; dst_Repository : string }.

(** [PullRequest]: the nested anonymous structs with one field are
    flattened to that field. *)
Record PullRequest := {
  pr_ID : Z;
  pr_Title : string;
  pr_State : string;
  pr_Author : pr_author;
  pr_Source : pr_source;
  pr_Destination : pr_destination;
  pr_Links : string;          (* links.html.href *)
  pr_Summary : string         (* summary.raw *)
}.

Record PullRequestListOptions := {
  State : string;
  Limit : Z;
  Mine : string
}.

Record pullRequestListPage := {
  Values : list PullRequest;
  Next : string
}.

Record CreatePullRequestInput := {
  Title : string;
  Description : string;
  Source : string;
  Destination : string;
  CloseSource : bool;
  Reviewers : list string
}.

(** Pointer fields: [None] is the nil pointer (field not set), [Some s]
    with [s] empty is an explicitly empty string. *)
Record UpdatePullRequestInput := {
  upd_Title : option string;
  upd_Description : option string
}.

Record pc_content := { Raw : string; Markup : string; HTML : string }.

(** [PullRequestComment]; [Account] is declared elsewhere in the package. *)
Record PullRequestComment (Account : Type) := {
  pc_ID : Z;
  pc_Content : pc_content;
  pc_User : option Account;
  pc_CreatedOn : string;
  pc_UpdatedOn : string;
  pc_LinksHTML : string;
  pc_LinksSelf : string
}.

Record CommentPullRequestOptions := {
  Text : string;
  FilePath : string;
  Line : Z;
  LineFrom : Z
}.

(* ===================================================================== *)
(** ** The transport and the other collaborators *)
(* ===================================================================== *)

(** What [NewRequest] was asked to build. *)
Record Request := {
  req_method : string;
  req_path : string;
  req_body : option any
}.

(** The collaborators of the client that are not part of this file of the
    package: the HTTP transport behind [c.http], the remote server, and the
    Unicode-table functions of the Go library.  [World] is the state of the
    remote side; a [serve*] function is one round trip decoded into the
    type of the out-pointer handed to [Do]. *)
Class Collaborators := {
  Account : Type;
  Ctx : Type;
  World : Type;
  URL : Type;
  ToUpper : string → string;                        (* strings.ToUpper *)
  EqualFold : string → string → bool;               (* strings.EqualFold *)
  Parse : string → Outcome URL;                     (* url.Parse *)
  RequestURI : URL → string;                        (* URL.RequestURI *)
  requestFailure : Ctx → string → option string;
  servePage : Request → World → Outcome pullRequestListPage * World;
  servePullRequest : Request → World → Outcome PullRequest * World;
  serveComment : Request → World → Outcome (PullRequestComment Account) * World
}.

(** The remote world together with the requests sent so far, oldest first. *)
Record NetState `{Collaborators} := {
  world : World;
  sent : list Request
}.

Section Client.
Context `{C : Collaborators}.

(** Modelled from the spec: the transport's [NewRequest] (section 4.1),
    which is not in this file of the package.  It builds the request from
    method, path and body and fails if the context is already cancelled or
    the path cannot be resolved against the base endpoint; it performs no
    network traffic. *)
Definition NewRequest (ctx : Ctx) (method path : string) (body : option any)
  : Result Request :=
  match requestFailure ctx path with
  | Some detail => Err (Foreign detail)
  | None => Ok {| req_method := method; req_path := path; req_body := body |}
  end.

(** Modelled from the spec: the transport's [Do] (section 4.1): exactly one
    network round trip, the response decoded into the out-pointer. *)
Definition Do {T : Type} (serve : Request → World → Outcome T * World)
    (req : Request) (st : NetState) : Result T * NetState :=
  let '(r, w) := serve req (world st) in
  (propagate r, {| world := w; sent := sent st ++ [req] |}).

(** [NewRequest] followed by [Do], as every operation ends. *)
Definition exchange {T : Type} (serve : Request → World → Outcome T * World)
    (ctx : Ctx) (method path : string) (body : option any) (st : NetState)
  : Result T * NetState :=
  match NewRequest ctx method path body with
  | Err e => (Err e, st)
  | Ok req => Do serve req st
  end.

(* ===================================================================== *)
(** ** ListPullRequests *)
(* ===================================================================== *)

(** The double quote of the author filter [author.username="%s"]. *)
Definition dquote : string := String (ascii_of_nat 34) EmptyString.

(** Lines 66-69: the page size. *)
Definition pageLen (opts : PullRequestListOptions) : Z :=
  if (Limit opts <=? 0) || (100 <? Limit opts) then 20 else Limit opts.

(** Lines 71-78: the query parameters, in the order they are appended. *)
Definition params (opts : PullRequestListOptions) : list string :=
  let params := ["pagelen=" +:+ fmt.itoa (pageLen opts)] in
  let state := strings.TrimSpace (State opts) in
  let params :=
    if negb (state =? "")%string && negb (EqualFold state "all")
    then params ++ ["state=" +:+ url.QueryEscape (ToUpper state)]
    else params in
  let params :=
    if negb (Mine opts =? "")%string
    then params ++ ["q=" +:+ url.QueryEscape
                              ("author.username=" +:+ dquote +:+ Mine opts +:+ dquote)]
    else params in
  params.

(** Lines 80-84: the path of the first request. *)
Definition listPath (workspace repoSlug : string) (opts : PullRequestListOptions)
  : string :=
  "/repositories/" +:+ url.PathEscape workspace +:+ "/"
    +:+ url.PathEscape repoSlug +:+ "/pullrequests?"
    +:+ strings.Join (params opts) "&".

(** Lines 87-113: the loop [for path != empty].  One unit of fuel per
    iteration; [None] when the fuel is used up before the loop ends. *)
Fixpoint pageLoop (fuel : nat) (ctx : Ctx) (limit : Z) (path : string)
    (prs : list PullRequest) (st : NetState)
  : option (Result (list PullRequest) * NetState) :=
  if (path =? "")%string then Some (Ok prs, st) else
  match fuel with
  | O => None
  | S fuel =>
      match NewRequest ctx "GET" path None with
      | Err e => Some (Err e, st)
      | Ok req =>
          match Do servePage req st with
          | (Err e, st) => Some (Err e, st)
          | (Ok page, st) =>
              let prs := prs ++ Values page in
              if (0 <? limit) && (limit <=? Z.of_nat (length prs))
              then Some (Ok (take (Z.to_nat limit) prs), st)
              else if (Next page =? "")%string then Some (Ok prs, st)
              else match propagate (Parse (Next page)) with
                   | Err e => Some (Err e, st)
                   | Ok nextURL =>
                       pageLoop fuel ctx limit (RequestURI nextURL) prs st
                   end
          end
      end
  end.

Definition ListPullRequests (fuel : nat) (ctx : Ctx) (workspace repoSlug : string)
    (opts : PullRequestListOptions) (st : NetState)
  : option (Result (list PullRequest) * NetState) :=
  if (workspace =? "")%string || (repoSlug =? "")%string
  then Some (Err (Errorf "workspace and repository slug are required"), st)
  else pageLoop fuel ctx (Limit opts) (listPath workspace repoSlug opts) [] st.

(* ===================================================================== *)
(** ** GetPullRequest *)
(* ===================================================================== *)

(** The path [/repositories/%s/%s/pullrequests/%d] shared by get and update. *)
Definition pullRequestPath (workspace repoSlug : string) (id : Z) : string :=
  "/repositories/" +:+ url.PathEscape workspace +:+ "/"
    +:+ url.PathEscape repoSlug +:+ "/pullrequests/" +:+ fmt.itoa id.

Definition GetPullRequest (ctx : Ctx) (workspace repoSlug : string) (id : Z)
    (st : NetState) : Result PullRequest * NetState :=
  if (workspace =? "")%string || (repoSlug =? "")%string
  then (Err (Errorf "workspace and repository slug are required"), st)
  else
    let path := pullRequestPath workspace repoSlug id in
    match NewRequest ctx "GET" path None with
    | Err e => (Err e, st)
    | Ok req => Do servePullRequest req st
    end.

(* ===================================================================== *)
(** ** CreatePullRequest *)
(* ===================================================================== *)

(** Lines 163-182: the request body. *)
Definition createBody (input : CreatePullRequestInput) : gmap string any :=
  let body : gmap string any :=
    {[ "title" := AString (Title input);
       "close_source_branch" := ABool (CloseSource input);
       "source" := AMap {[ "branch" := AStringMap {[ "name" := Source input ]} ]};
       "destination" :=
         AMap {[ "branch" := AStringMap {[ "name" := Destination input ]} ]} ]} in
  let body :=
    if negb (Description input =? "")%string
    then <[ "description" := AString (Description input) ]> body
    else body in
  let body :=
    if (0 <? length (Reviewers input))%nat
    then <[ "reviewers" :=
              AStringMaps
                (map (λ reviewer, {[ "username" := reviewer ]}) (Reviewers input)) ]>
           body
    else body in
  body.

Definition CreatePullRequest (ctx : Ctx) (workspace repoSlug : string)
    (input : CreatePullRequestInput) (st : NetState)
  : Result PullRequest * NetState :=
  if (workspace =? "")%string || (repoSlug =? "")%string
  then (Err (Errorf "workspace and repository slug are required"), st)
  else if (strings.TrimSpace (Title input) =? "")%string
  then (Err (Errorf "title is required"), st)
  else if (strings.TrimSpace (Source input) =? "")%string
          || (strings.TrimSpace (Destination input) =? "")%string
  then (Err (Errorf "source and destination branches are required"), st)
  else
    let body := createBody input in
    let path := "/repositories/" +:+ url.PathEscape workspace +:+ "/"
                  +:+ url.PathEscape repoSlug +:+ "/pullrequests" in
    match NewRequest ctx "POST" path (Some (AMap body)) with
    | Err e => (Err e, st)
    | Ok req => Do servePullRequest req st
    end.

(* ===================================================================== *)
(** ** UpdatePullRequest *)
(* ===================================================================== *)

(** Lines 214-220: the fields that are set, and no others. *)
Definition updateBody (input : UpdatePullRequestInput) : gmap string any :=
  let body : gmap string any := ∅ in
  let body :=
    match upd_Title input with
    | Some title => <[ "title" := AString title ]> body
    | None => body
    end in
  let body :=
    match upd_Description input with
    | Some description => <[ "description" := AString description ]> body
    | None => body
    end in
  body.

Definition UpdatePullRequest (ctx : Ctx) (workspace repoSlug : string) (id : Z)
    (input : UpdatePullRequestInput) (st : NetState)
  : Result PullRequest * NetState :=
  if (workspace =? "")%string || (repoSlug =? "")%string
  then (Err (Errorf "workspace and repository slug are required"), st)
  else
    let body := updateBody input in
    if (size body =? 0)%nat
    then (Err (Errorf "at least one field (title or description) must be provided"),
          st)
    else
      let path := pullRequestPath workspace repoSlug id in
      match NewRequest ctx "PUT" path (Some (AMap body)) with
      | Err e => (Err e, st)
      | Ok req => Do servePullRequest req st
      end.

(* ===================================================================== *)
(** ** CommentPullRequest *)
(* ===================================================================== *)

(** The message of line 303. *)
Definition lineRangeError (lineFrom line : Z) : string :=
  "line range start (" +:+ fmt.itoa lineFrom
    +:+ ") must be less than or equal to end (" +:+ fmt.itoa line +:+ ")".

(** Lines 283-309: the payload, or the line-geometry error that stops its
    construction. *)
Definition commentPayload (opts : CommentPullRequestOptions)
  : Result (gmap string any) :=
  let payload : gmap string any :=
    {[ "content" := AMap {[ "raw" := AString (Text opts) ]} ]} in
  if negb (FilePath opts =? "")%string then
    if Line opts <=? 0
    then Err (Errorf "line number must be positive when file path is specified")
    else
      let inline : gmap string any :=
        {[ "path" := AString (FilePath opts); "to" := AInt (Line opts) ]} in
      if 0 <? LineFrom opts then
        if Line opts <? LineFrom opts
        then Err (Errorf (lineRangeError (LineFrom opts) (Line opts)))
        else
          let inline := <[ "from" := AInt (LineFrom opts) ]> inline in
          Ok (<[ "inline" := AMap inline ]> payload)
      else Ok (<[ "inline" := AMap inline ]> payload)
  else Ok payload.

Definition commentPath (workspace repoSlug : string) (id : Z) : string :=
  "/repositories/" +:+ url.PathEscape workspace +:+ "/"
    +:+ url.PathEscape repoSlug +:+ "/pullrequests/" +:+ fmt.itoa id
    +:+ "/comments".

Definition CommentPullRequest (ctx : Ctx) (workspace repoSlug : string) (id : Z)
    (opts : CommentPullRequestOptions) (st : NetState)
  : Result (PullRequestComment Account) * NetState :=
  if (workspace =? "")%string || (repoSlug =? "")%string
  then (Err (Errorf "workspace and repository slug are required"), st)
  else if (strings.TrimSpace (Text opts) =? "")%string
  then (Err (Errorf "comment text is required"), st)
  else
    match commentPayload opts with
    | Err e => (Err e, st)
    | Ok payload =>
        let path := commentPath workspace repoSlug id in
        match NewRequest ctx "POST" path (Some (AMap payload)) with
        | Err e => (Err e, st)
        | Ok req => Do serveComment req st
        end
    end.

End Client.

(* ===================================================================== *)
(** ** Notions used to state the properties *)
(* ===================================================================== *)

(** The validation error of a result: the message of an error built by the
    package itself, if the result is one. *)
Definition validationError {A : Type} (r : Result A) : option string :=
  match r with
  | Err (Errorf msg) => Some msg
  | _ => None
  end.

Section Chain.
Context `{C : Collaborators}.

(** One page request: the [NewRequest] and [Do] of one loop iteration. *)
Definition fetch (ctx : Ctx) (path : string) (st : NetState)
  : Result pullRequestListPage * NetState :=
  exchange servePage ctx "GET" path None st.

(** The pages the server supplies from [path] on when its next-references
    are followed to the end: [Some] when the chain ends, without a failure,
    within [fuel] pages. *)
Fixpoint serverPages (fuel : nat) (ctx : Ctx) (path : string) (st : NetState)
  : option (list pullRequestListPage * NetState) :=
  if (path =? "")%string then Some ([], st) else
  match fuel with
  | O => None
  | S fuel =>
      match fetch ctx path st with
      | (Err _, _) => None
      | (Ok page, st) =>
          if (Next page =? "")%string then Some ([page], st)
          else match Parse (Next page) with
               | Failure _ => None
               | Success nextURL =>
                   match serverPages fuel ctx (RequestURI nextURL) st with
                   | Some (pages, st) => Some (page :: pages, st)
                   | None => None
                   end
               end
      end
  end.

(** The chain of next-references from [path] ends within [n] requests: at
    an empty next-reference, or at a request that fails. *)
Fixpoint chainEndsWithin (n : nat) (ctx : Ctx) (path : string) (st : NetState)
  : bool :=
  if (path =? "")%string then true else
  match n with
  | O => false
  | S n =>
      match fetch ctx path st with
      | (Err _, _) => true
      | (Ok page, st) =>
          if (Next page =? "")%string then true
          else match Parse (Next page) with
               | Failure _ => true
               | Success nextURL => chainEndsWithin n ctx (RequestURI nextURL) st
               end
      end
  end.

(** Starting with [acc] items, the number of page requests after which the
    accumulated item count first reaches [limit], if it does so within
    [fuel] requests along the chain from [path]. *)
Fixpoint pagesToLimit (fuel : nat) (ctx : Ctx) (limit : Z) (acc : nat)
    (path : string) (st : NetState) : option nat :=
  if (path =? "")%string then None else
  match fuel with
  | O => None
  | S fuel =>
      match fetch ctx path st with
      | (Err _, _) => None
      | (Ok page, st) =>
          let acc := (acc + length (Values page))%nat in
          if limit <=? Z.of_nat acc then Some 1%nat
          else if (Next page =? "")%string then None
          else match Parse (Next page) with
               | Failure _ => None
               | Success nextURL =>
                   S <$> pagesToLimit fuel ctx limit acc (RequestURI nextURL) st
               end
      end
  end.

End Chain.

(** All items of a sequence of pages, in order. *)
Definition items (pages : list pullRequestListPage) : list PullRequest :=
  concat (Values <$> pages).

(** Reading a request body back into the input it was built from: the keys
    [createBody] writes, an absent [description] or [reviewers] read as
    empty. *)
Definition decodeCreateBody (body : gmap string any)
  : option CreatePullRequestInput :=
  match body !! "title", body !! "close_source_branch",
        body !! "source", body !! "destination" with
  | Some (AString title), Some (ABool closeSource),
    Some (AMap source), Some (AMap destination) =>
      match source !! "branch", destination !! "branch" with
      | Some (AStringMap sourceBranch), Some (AStringMap destinationBranch) =>
          match sourceBranch !! "name", destinationBranch !! "name",
                match body !! "description" with
                | None => Some ""
                | Some (AString description) => Some description
                | Some _ => None
                end,
                match body !! "reviewers" with
                | None => Some []
                | Some (AStringMaps reviewers) =>
                    mapM (λ reviewer : gmap string string, reviewer !! "username")
                         reviewers
                | Some _ => None
                end with
          | Some source, Some destination, Some description, Some reviewers =>
              Some {| Title := title; Description := description;
                      Source := source; Destination := destination;
                      CloseSource := closeSource; Reviewers := reviewers |}
          | _, _, _, _ => None
          end
      | _, _ => None
      end
  | _, _, _, _ => None
  end.

(* ===================================================================== *)
(** ** A concrete server, for running the operations *)
(* ===================================================================== *)

Module Demo.

Definition upper (c : ascii) : ascii :=
  let n := byte_of c in
  if ((97 <=? n) && (n <=? 122))%N then ascii_of_N (n - 32) else c.

Fixpoint asciiUpper (s : string) : string :=
  match s with
  | EmptyString => EmptyString
  | String c r => String (upper c) (asciiUpper r)
  end.

(** A server that answers a page request from a table of pages by path
    and counts the round trips; the context is a cancellation flag and
    next-references are already request-relative. *)
Definition server (pages : string → option pullRequestListPage)
  : Collaborators := {|
  Account := string;
  Ctx := bool;
  World := nat;
  URL := string;
  ToUpper := asciiUpper;
  EqualFold := λ a b, (asciiUpper a =? asciiUpper b)%string;
  Parse := λ s, Success s;
  RequestURI := λ u, u;
  requestFailure := λ cancelled _,
    if cancelled then Some "context canceled" else None;
  servePage := λ req w,
    (match pages (req_path req) with
     | Some page => Success page
     | None => Failure "404 Not Found"
     end, S w);
  servePullRequest := λ req w,
    (Success {| pr_ID := 1; pr_Title := "t"; pr_State := "OPEN";
           pr_Author := {| DisplayName := "A"; Username := "a" |};
           pr_Source := {| src_Branch := "f"; src_Commit := "c0";
                           src_Repository := "repo" |};
           pr_Destination := {| dst_Branch := "main";
                                dst_Repository := "repo" |};
           pr_Links := "https://example.org/pr/1";
           pr_Summary := "" |}, S w);
  serveComment := λ req w,
    (Success {| pc_ID := 123;
           pc_Content := {| Raw := "r"; Markup := "markdown"; HTML := "" |};
           pc_User := None; pc_CreatedOn := ""; pc_UpdatedOn := "";
           pc_LinksHTML := ""; pc_LinksSelf := "" |}, S w)
|}.

Definition pr (n : Z) : PullRequest :=
  {| pr_ID := n; pr_Title := "pr"; pr_State := "OPEN";
     pr_Author := {| DisplayName := "A"; Username := "a" |};
     pr_Source := {| src_Branch := "f"; src_Commit := "c0";
                     src_Repository := "repo" |};
     pr_Destination := {| dst_Branch := "main"; dst_Repository := "repo" |};
     pr_Links := ""; pr_Summary := "" |}.

(** Three pages of two pull requests each. *)
Definition threePages (first : string) (path : string)
  : option pullRequestListPage :=
  if (path =? first)%string
  then Some {| Values := [pr 1; pr 2]; Next := "/page2" |}
  else if (path =? "/page2")%string
  then Some {| Values := [pr 3; pr 4]; Next := "/page3" |}
  else if (path =? "/page3")%string
  then Some {| Values := [pr 5; pr 6]; Next := "" |}
  else None.

(** A server whose next-references never end. *)
Definition endless (path : string) : option pullRequestListPage :=
  Some {| Values := [pr 1; pr 2]; Next := "/again" |}.

Definition start (C : Collaborators) (w : @World C) : @NetState C :=
  {| world := w; sent := [] |}.

(** The three pages behind the first path of a listing with limit 5,
    behind that of a listing without limit, and the endless server. *)
Definition paged5 : Collaborators :=
  server (threePages "/repositories/ws/repo/pullrequests?pagelen=5").
Definition paged20 : Collaborators :=
  server (threePages "/repositories/ws/repo/pullrequests?pagelen=20").
Definition looping : Collaborators := server endless.

Definition limit5 : PullRequestListOptions :=
  {| State := ""; Limit := 5; Mine := "" |}.
Definition unlimited : PullRequestListOptions :=
  {| State := ""; Limit := 0; Mine := "" |}.

Definition pages : list pullRequestListPage :=
  [ {| Values := [pr 1; pr 2]; Next := "/page2" |};
    {| Values := [pr 3; pr 4]; Next := "/page3" |};
    {| Values := [pr 5; pr 6]; Next := "" |} ].

Definition rangeComment : CommentPullRequestOptions :=
  {| Text := "Refactor this block"; FilePath := "src/helper.go";
     Line := 20; LineFrom := 10 |}.
Definition invertedRange : CommentPullRequestOptions :=
  {| Text := "test"; FilePath := "src/main.go"; Line := 10; LineFrom := 20 |}.
Definition rangeWithoutLine : CommentPullRequestOptions :=
  {| Text := "test"; FilePath := "src/main.go"; Line := 0; LineFrom := 5 |}.
Definition strayLines : CommentPullRequestOptions :=
  {| Text := "Looks good!"; FilePath := ""; Line := -3; LineFrom := 99 |}.

Definition clearTitle : UpdatePullRequestInput :=
  {| upd_Title := Some ""; upd_Description := None |}.

Definition newPullRequest : CreatePullRequestInput :=
  {| Title := "Add feature"; Description := ""; Source := "feature";
     Destination := "main"; CloseSource := true;
     Reviewers := ["alice"; "bob"] |}.

Definition blankTitle : CreatePullRequestInput :=
  {| Title := "   "; Description := ""; Source := "feature";
     Destination := "main"; CloseSource := false; Reviewers := [] |}.

Definition negativeLimit : PullRequestListOptions :=
  {| State := ""; Limit := -3; Mine := "" |}.
Definition filtered : PullRequestListOptions :=
  {| State := " open "; Limit := 0; Mine := "bob" |}.

Definition negativeLineFrom : CommentPullRequestOptions :=
  {| Text := "Fix this"; FilePath := "src/main.go"; Line := 42; LineFrom := -1 |}.

(** The endless server behind a transport that cannot resolve the path of
    pull request 7, and resolves every other path. *)
Definition unresolvable : Collaborators := {|
  Account := @Account looping;
  Ctx := @Ctx looping;
  World := @World looping;
  URL := @URL looping;
  ToUpper := @ToUpper looping;
  EqualFold := @EqualFold looping;
  Parse := @Parse looping;
  RequestURI := @RequestURI looping;
  requestFailure := λ _ path,
    if (path =? "/repositories/ws/repo/pullrequests/7")%string
    then Some "cannot resolve path" else None;
  servePage := @servePage looping;
  servePullRequest := @servePullRequest looping;
  serveComment := @serveComment looping
|}.

End Demo.

(* ===================================================================== *)
(** ** Basic facts about the transport and the validation guards *)
(* ===================================================================== *)

Section Properties.
Context `{C : Collaborators}.

Lemma eqb_empty_false (s : string) : s ≠ "" → (s =? "")%string = false.
Proof. intros Hs. by apply String.eqb_neq. Qed.

Lemma guard_passes (workspace repoSlug : string) :
  workspace ≠ "" → repoSlug ≠ "" →
  (workspace =? "")%string || (repoSlug =? "")%string = false.
Proof. intros Hw Hr. by rewrite !eqb_empty_false. Qed.

Lemma guard_rejects (workspace repoSlug : string) :
  workspace = "" ∨ repoSlug = "" →
  (workspace =? "")%string || (repoSlug =? "")%string = true.
Proof.
  intros [-> | ->]; [done |].
  by rewrite orb_true_r.
Qed.

Lemma validationError_propagate {T : Type} (o : Outcome T) :
  validationError (propagate o) = None.
Proof. by destruct o. Qed.

Lemma validationError_Do {T : Type}
    (serve : Request → World → Outcome T * World) req st :
  validationError (Do serve req st).1 = None.
Proof.
  unfold Do. destruct (serve req (world st)) as [o w]; simpl.
  apply validationError_propagate.
Qed.

Lemma validationError_exchange {T : Type}
    (serve : Request → World → Outcome T * World) ctx method path body st :
  validationError (exchange serve ctx method path body st).1 = None.
Proof.
  unfold exchange, NewRequest.
  destruct (requestFailure ctx path); [done |].
  apply validationError_Do.
Qed.

Lemma sent_Do {T : Type}
    (serve : Request → World → Outcome T * World) req st :
  sent (Do serve req st).2 = sent st ++ [req].
Proof. unfold Do. by destruct (serve req (world st)). Qed.

(** When the request can be built, the exchange sends exactly that request. *)
Lemma sent_exchange {T : Type}
    (serve : Request → World → Outcome T * World) ctx method path body st :
  requestFailure ctx path = None →
  sent (exchange serve ctx method path body st).2
  = sent st ++ [{| req_method := method; req_path := path; req_body := body |}].
Proof.
  intros Hnf. unfold exchange, NewRequest. rewrite Hnf.
  apply sent_Do.
Qed.

(** When it cannot, nothing is sent. *)
Lemma exchange_refused {T : Type}
    (serve : Request → World → Outcome T * World) ctx method path body st detail :
  requestFailure ctx path = Some detail →
  exchange serve ctx method path body st = (Err (Foreign detail), st).
Proof. intros Hf. unfold exchange, NewRequest. by rewrite Hf. Qed.

(** The tail of the single-request operations is an [exchange]. *)
Lemma GetPullRequest_exchange ctx workspace repoSlug id st :
  workspace ≠ "" → repoSlug ≠ "" →
  GetPullRequest ctx workspace repoSlug id st
  = exchange servePullRequest ctx "GET" (pullRequestPath workspace repoSlug id)
      None st.
Proof. intros Hw Hr. unfold GetPullRequest. by rewrite guard_passes. Qed.

Lemma size_updateBody input :
  (size (updateBody input) =? 0)%nat = true
  ↔ upd_Title input = None ∧ upd_Description input = None.
Proof.
  unfold updateBody.
  destruct (upd_Title input), (upd_Description input); simpl;
    rewrite Nat.eqb_eq, map_size_empty_iff; split; intros H;
    first [ by destruct H | by apply insert_non_empty in H | done ].
Qed.

Lemma UpdatePullRequest_exchange ctx workspace repoSlug id input st :
  workspace ≠ "" → repoSlug ≠ "" →
  ¬ (upd_Title input = None ∧ upd_Description input = None) →
  UpdatePullRequest ctx workspace repoSlug id input st
  = exchange servePullRequest ctx "PUT" (pullRequestPath workspace repoSlug id)
      (Some (AMap (updateBody input))) st.
Proof.
  intros Hw Hr Hin. unfold UpdatePullRequest. rewrite guard_passes by done.
  destruct (size (updateBody input) =? 0)%nat eqn:Hsz; [| done].
  apply size_updateBody in Hsz. contradiction.
Qed.

Lemma CommentPullRequest_exchange ctx workspace repoSlug id opts st payload :
  workspace ≠ "" → repoSlug ≠ "" →
  strings.TrimSpace (Text opts) ≠ "" →
  commentPayload opts = Ok payload →
  CommentPullRequest ctx workspace repoSlug id opts st
  = exchange serveComment ctx "POST" (commentPath workspace repoSlug id)
      (Some (AMap payload)) st.
Proof.
  intros Hw Hr Ht Hp. unfold CommentPullRequest.
  rewrite guard_passes by done. rewrite eqb_empty_false by done.
  by rewrite Hp.
Qed.

(* ===================================================================== *)
(** ** Workspace and repository slug *)
(* ===================================================================== *)

(** C5.  With an empty workspace or an empty repository slug, each of the
    five operations returns the error "workspace and repository slug are
    required", whatever its other arguments, and leaves the network state
    as it found it: no request has been sent and the remote world is
    untouched.  For the listing this holds for every amount of fuel, so the
    error is returned before the first loop iteration. *)
Theorem C5_workspace_and_slug_required
    (ctx : Ctx) (workspace repoSlug : string) (st : NetState) :
  workspace = "" ∨ repoSlug = "" →
  let required := Errorf "workspace and repository slug are required" in
  (∀ fuel opts,
      ListPullRequests fuel ctx workspace repoSlug opts st
      = Some (Err required, st))
  ∧ (∀ id, GetPullRequest ctx workspace repoSlug id st = (Err required, st))
  ∧ (∀ input,
      CreatePullRequest ctx workspace repoSlug input st = (Err required, st))
  ∧ (∀ id input,
      UpdatePullRequest ctx workspace repoSlug id input st = (Err required, st))
  ∧ (∀ id opts,
      CommentPullRequest ctx workspace repoSlug id opts st = (Err required, st)).
Proof.
  intros Hempty required. apply guard_rejects in Hempty.
  repeat split; intros;
    unfold ListPullRequests, GetPullRequest, CreatePullRequest,
      UpdatePullRequest, CommentPullRequest;
    by rewrite Hempty.
Qed.

(* ===================================================================== *)
(** ** UpdatePullRequest: sparse payload and the empty-payload check *)
(* ===================================================================== *)

Lemma updateBody_title input :
  updateBody input !! "title" = AString <$> upd_Title input.
Proof.
  unfold updateBody.
  destruct (upd_Title input), (upd_Description input); simpl;
    by simplify_map_eq.
Qed.

Lemma updateBody_description input :
  updateBody input !! "description" = AString <$> upd_Description input.
Proof.
  unfold updateBody.
  destruct (upd_Title input), (upd_Description input); simpl;
    by simplify_map_eq.
Qed.

Lemma updateBody_other input (k : string) :
  k ≠ "title" → k ≠ "description" → updateBody input !! k = None.
Proof.
  intros Ht Hd. unfold updateBody.
  destruct (upd_Title input), (upd_Description input); simpl;
    by simplify_map_eq.
Qed.

Lemma UpdatePullRequest_empty ctx workspace repoSlug id input st :
  workspace ≠ "" → repoSlug ≠ "" →
  upd_Title input = None → upd_Description input = None →
  UpdatePullRequest ctx workspace repoSlug id input st
  = (Err (Errorf "at least one field (title or description) must be provided"),
     st).
Proof.
  intros Hw Hr Ht Hd. unfold UpdatePullRequest. rewrite guard_passes by done.
  destruct (size (updateBody input) =? 0)%nat eqn:Hsz; [done |].
  assert ((size (updateBody input) =? 0)%nat = true) as Hsz'
    by by apply size_updateBody.
  congruence.
Qed.

(** C1.  For a non-empty workspace and repository slug:
    the payload [updateBody input] holds [title] exactly when [Title] is
    set and [description] exactly when [Description] is set, each with the
    value given, and no other key; [UpdatePullRequest] returns the error
    "at least one field (title or description) must be provided" if and
    only if both fields are absent, and then nothing has been sent; in
    every other case, an explicitly empty string included, there is no
    validation error and the payload is handed to the transport in a PUT
    request. *)
Theorem C1_update_payload_and_empty_check
    (ctx : Ctx) (workspace repoSlug : string) (id : Z)
    (input : UpdatePullRequestInput) (st : NetState) :
  workspace ≠ "" → repoSlug ≠ "" →
  let absent := upd_Title input = None ∧ upd_Description input = None in
  let run := UpdatePullRequest ctx workspace repoSlug id input st in
  let empty :=
    Errorf "at least one field (title or description) must be provided" in
  (updateBody input !! "title" = AString <$> upd_Title input
   ∧ updateBody input !! "description" = AString <$> upd_Description input
   ∧ ∀ k : string, k ≠ "title" → k ≠ "description" → updateBody input !! k = None)
  ∧ (run.1 = Err empty ↔ absent)
  ∧ (absent → run = (Err empty, st))
  ∧ (¬ absent →
       validationError run.1 = None
       ∧ run = exchange servePullRequest ctx "PUT"
                 (pullRequestPath workspace repoSlug id)
                 (Some (AMap (updateBody input))) st).
Proof.
  intros Hw Hr absent run empty.
  assert (¬ absent →
          validationError run.1 = None
          ∧ run = exchange servePullRequest ctx "PUT"
                    (pullRequestPath workspace repoSlug id)
                    (Some (AMap (updateBody input))) st) as Hpresent.
  { intros Hn. subst run.
    rewrite UpdatePullRequest_exchange by done.
    split; [apply validationError_exchange | done]. }
  assert (absent → run = (Err empty, st)) as Habsent.
  { intros [Ht Hd]. by apply UpdatePullRequest_empty. }
  split; [| split; [| split]]; try done.
  - split; [apply updateBody_title |].
    split; [apply updateBody_description | apply updateBody_other].
  - split.
    + intros Hrun.
      destruct (upd_Title input) as [t |] eqn:Ht;
        destruct (upd_Description input) as [d |] eqn:Hd;
        try (destruct Hpresent as [Hv _];
             [ unfold absent; intros [? ?]; discriminate
             | rewrite Hrun in Hv; discriminate ]).
      by unfold absent.
    + intros Ha. by rewrite (Habsent Ha).
Qed.

(* ===================================================================== *)
(** ** CommentPullRequest: validation and payload *)
(* ===================================================================== *)

(** The four ways through the payload construction. *)
Lemma commentPayload_general opts :
  FilePath opts = "" →
  commentPayload opts = Ok {[ "content" := AMap {[ "raw" := AString (Text opts) ]} ]}.
Proof. intros Hf. unfold commentPayload. by rewrite Hf. Qed.

Lemma commentPayload_line opts :
  FilePath opts ≠ "" → Line opts <= 0 →
  commentPayload opts
  = Err (Errorf "line number must be positive when file path is specified").
Proof.
  intros Hf Hl. unfold commentPayload. rewrite eqb_empty_false by done. simpl.
  by rewrite (proj2 (Z.leb_le _ _) Hl).
Qed.

Lemma commentPayload_range opts :
  FilePath opts ≠ "" → 0 < Line opts →
  0 < LineFrom opts → Line opts < LineFrom opts →
  commentPayload opts = Err (Errorf (lineRangeError (LineFrom opts) (Line opts))).
Proof.
  intros Hf Hl Hlf Hgt. unfold commentPayload.
  rewrite eqb_empty_false by done. simpl.
  rewrite (proj2 (Z.leb_gt _ _) Hl).
  rewrite (proj2 (Z.ltb_lt _ _) Hlf).
  by rewrite (proj2 (Z.ltb_lt _ _) Hgt).
Qed.

Lemma commentPayload_single opts :
  FilePath opts ≠ "" → 0 < Line opts → LineFrom opts <= 0 →
  commentPayload opts
  = Ok (<[ "inline" :=
             AMap {[ "path" := AString (FilePath opts); "to" := AInt (Line opts) ]} ]>
          {[ "content" := AMap {[ "raw" := AString (Text opts) ]} ]}).
Proof.
  intros Hf Hl Hlf. unfold commentPayload.
  rewrite eqb_empty_false by done. simpl.
  rewrite (proj2 (Z.leb_gt _ _) Hl).
  by rewrite (proj2 (Z.ltb_ge _ _) Hlf).
Qed.

Lemma commentPayload_span opts :
  FilePath opts ≠ "" → 0 < Line opts →
  0 < LineFrom opts → LineFrom opts <= Line opts →
  commentPayload opts
  = Ok (<[ "inline" :=
             AMap (<[ "from" := AInt (LineFrom opts) ]>
                     {[ "path" := AString (FilePath opts);
                        "to" := AInt (Line opts) ]}) ]>
          {[ "content" := AMap {[ "raw" := AString (Text opts) ]} ]}).
Proof.
  intros Hf Hl Hlf Hle. unfold commentPayload.
  rewrite eqb_empty_false by done. simpl.
  rewrite (proj2 (Z.leb_gt _ _) Hl).
  rewrite (proj2 (Z.ltb_lt _ _) Hlf).
  by rewrite (proj2 (Z.ltb_ge _ _) Hle).
Qed.

(** The outcome of the payload construction, by cases on the options. *)
Lemma commentPayload_cases opts :
  (FilePath opts = ""
   ∧ commentPayload opts
     = Ok {[ "content" := AMap {[ "raw" := AString (Text opts) ]} ]})
  ∨ (FilePath opts ≠ "" ∧ Line opts <= 0
     ∧ commentPayload opts
       = Err (Errorf "line number must be positive when file path is specified"))
  ∨ (FilePath opts ≠ "" ∧ 0 < Line opts ∧ 0 < LineFrom opts
     ∧ Line opts < LineFrom opts
     ∧ commentPayload opts
       = Err (Errorf (lineRangeError (LineFrom opts) (Line opts))))
  ∨ (FilePath opts ≠ "" ∧ 0 < Line opts ∧ LineFrom opts <= 0
     ∧ commentPayload opts
       = Ok (<[ "inline" :=
                  AMap {[ "path" := AString (FilePath opts);
                          "to" := AInt (Line opts) ]} ]>
               {[ "content" := AMap {[ "raw" := AString (Text opts) ]} ]}))
  ∨ (FilePath opts ≠ "" ∧ 0 < Line opts ∧ 0 < LineFrom opts
     ∧ LineFrom opts <= Line opts
     ∧ commentPayload opts
       = Ok (<[ "inline" :=
                  AMap (<[ "from" := AInt (LineFrom opts) ]>
                          {[ "path" := AString (FilePath opts);
                             "to" := AInt (Line opts) ]}) ]>
               {[ "content" := AMap {[ "raw" := AString (Text opts) ]} ]})).
Proof.
  destruct (decide (FilePath opts = "")) as [Hf | Hf].
  { left. split; [done | by apply commentPayload_general]. }
  right.
  destruct (Z_le_gt_dec (Line opts) 0) as [Hl | Hl].
  { left. repeat split; try done. by apply commentPayload_line. }
  right.
  destruct (Z_le_gt_dec (LineFrom opts) 0) as [Hlf | Hlf].
  { right. left. repeat split; try done; try lia.
    apply commentPayload_single; [done | lia | done]. }
  destruct (Z_le_gt_dec (LineFrom opts) (Line opts)) as [Hle | Hgt].
  - right. right. repeat split; try done; try lia.
    apply commentPayload_span; [done | lia | lia | done].
  - left. repeat split; try done; try lia.
    apply commentPayload_range; [done | lia | lia | lia].
Qed.

Lemma CommentPullRequest_blank ctx workspace repoSlug id opts st :
  workspace ≠ "" → repoSlug ≠ "" →
  strings.TrimSpace (Text opts) = "" →
  CommentPullRequest ctx workspace repoSlug id opts st
  = (Err (Errorf "comment text is required"), st).
Proof.
  intros Hw Hr Ht. unfold CommentPullRequest.
  rewrite guard_passes by done. by rewrite Ht.
Qed.

Lemma CommentPullRequest_geometry ctx workspace repoSlug id opts st e :
  workspace ≠ "" → repoSlug ≠ "" →
  strings.TrimSpace (Text opts) ≠ "" →
  commentPayload opts = Err e →
  CommentPullRequest ctx workspace repoSlug id opts st = (Err e, st).
Proof.
  intros Hw Hr Ht Hp. unfold CommentPullRequest.
  rewrite guard_passes by done. rewrite eqb_empty_false by done.
  by rewrite Hp.
Qed.

(** C3 (amended).  For a non-empty workspace and repository slug,
    [CommentPullRequest] fails with nothing sent and the remote world
    untouched, the checks applying in the order of the code:
    a text that is blank after trimming fails with "comment text is
    required"; a non-blank text, a non-empty [FilePath] and [Line <= 0]
    fail with "line number must be positive when file path is specified";
    a non-blank text, a non-empty [FilePath], [Line > 0], [LineFrom > 0]
    and [LineFrom > Line] fail with "line range start (<LineFrom>) must be
    less than or equal to end (<Line>)", the two values printed in decimal. *)
Theorem C3_comment_validation_in_order
    (ctx : Ctx) (workspace repoSlug : string) (id : Z)
    (opts : CommentPullRequestOptions) (st : NetState) :
  workspace ≠ "" → repoSlug ≠ "" →
  let run := CommentPullRequest ctx workspace repoSlug id opts st in
  (strings.TrimSpace (Text opts) = "" →
     run = (Err (Errorf "comment text is required"), st))
  ∧ (strings.TrimSpace (Text opts) ≠ "" →
     FilePath opts ≠ "" → Line opts <= 0 →
     run = (Err (Errorf
                   "line number must be positive when file path is specified"),
            st))
  ∧ (strings.TrimSpace (Text opts) ≠ "" →
     FilePath opts ≠ "" → 0 < Line opts →
     0 < LineFrom opts → Line opts < LineFrom opts →
     run = (Err (Errorf ("line range start (" +:+ fmt.itoa (LineFrom opts)
                           +:+ ") must be less than or equal to end ("
                           +:+ fmt.itoa (Line opts) +:+ ")")),
            st)).
Proof.
  intros Hw Hr run. subst run. split; [| split].
  - intros Ht. by apply CommentPullRequest_blank.
  - intros Ht Hf Hl. apply CommentPullRequest_geometry; try done.
    by apply commentPayload_line.
  - intros Ht Hf Hl Hlf Hgt. apply CommentPullRequest_geometry; try done.
    by apply commentPayload_range.
Qed.

(** What [CommentPullRequest] does when no validation error arises. *)
Lemma CommentPullRequest_valid ctx workspace repoSlug id opts st :
  validationError (CommentPullRequest ctx workspace repoSlug id opts st).1 = None →
  workspace ≠ "" ∧ repoSlug ≠ ""
  ∧ strings.TrimSpace (Text opts) ≠ ""
  ∧ ∃ payload, commentPayload opts = Ok payload.
Proof.
  unfold CommentPullRequest.
  destruct (String.eqb_spec workspace "") as [Hw | Hw]; [done |].
  destruct (String.eqb_spec repoSlug "") as [Hr | Hr]; [done |]. simpl.
  destruct (String.eqb_spec (strings.TrimSpace (Text opts)) "") as [Ht | Ht];
    [done |].
  destruct (commentPayload opts) as [payload | [msg | detail]] eqn:Hp; simpl.
  - intros _. eauto.
  - done.
  - exfalso.
    destruct (commentPayload_cases opts)
      as [[_ H] | [(_ & _ & H) | [(_ & _ & _ & _ & H)
         | [(_ & _ & _ & H) | (_ & _ & _ & _ & H)]]]]; congruence.
Qed.

(** C4.  For every input that [CommentPullRequest] accepts (the call
    yields no validation error), the payload handed to the transport, in
    a POST request to the comments path, has [content] equal to the
    object with the single key [raw] holding [Text]; it has no key other
    than [content] and [inline]; it has an [inline] key if and only if
    [FilePath] is non-empty, and then [inline] is an object with [path]
    equal to [FilePath], [to] equal to [Line], a [from] key, equal to
    [LineFrom], if and only if [LineFrom > 0], and no further key. *)
Theorem C4_comment_payload
    (ctx : Ctx) (workspace repoSlug : string) (id : Z)
    (opts : CommentPullRequestOptions) (st : NetState) :
  validationError (CommentPullRequest ctx workspace repoSlug id opts st).1 = None →
  ∃ payload : gmap string any,
    CommentPullRequest ctx workspace repoSlug id opts st
    = exchange serveComment ctx "POST" (commentPath workspace repoSlug id)
        (Some (AMap payload)) st
    ∧ payload !! "content" = Some (AMap {[ "raw" := AString (Text opts) ]})
    ∧ (∀ k : string, k ≠ "content" → k ≠ "inline" → payload !! k = None)
    ∧ (payload !! "inline" = None ↔ FilePath opts = "")
    ∧ (FilePath opts ≠ "" →
       ∃ inline : gmap string any,
         payload !! "inline" = Some (AMap inline)
         ∧ inline !! "path" = Some (AString (FilePath opts))
         ∧ inline !! "to" = Some (AInt (Line opts))
         ∧ (0 < LineFrom opts → inline !! "from" = Some (AInt (LineFrom opts)))
         ∧ (inline !! "from" = None ↔ LineFrom opts <= 0)
         ∧ (∀ k : string,
              k ≠ "path" → k ≠ "to" → k ≠ "from" → inline !! k = None)).
Proof.
  intros Hvalid.
  destruct (CommentPullRequest_valid _ _ _ _ _ _ Hvalid)
    as (Hw & Hr & Ht & payload & Hp).
  exists payload. split; [by apply CommentPullRequest_exchange |].
  destruct (commentPayload_cases opts)
    as [[Hf H] | [(_ & _ & H) | [(_ & _ & _ & _ & H)
       | [(Hf & Hl & Hlf & H) | (Hf & Hl & Hlf & Hle & H)]]]];
    rewrite H in Hp; try discriminate; injection Hp as <-.
  - (* general comment *)
    split; [by simplify_map_eq |].
    split; [intros; by simplify_map_eq |].
    split; [split; [done | intros _; by simplify_map_eq] |].
    intros Hne. contradiction.
  - (* one line *)
    split; [by simplify_map_eq |].
    split; [intros; by simplify_map_eq |].
    split; [split; [by simplify_map_eq | intros ?; contradiction] |].
    intros _. eexists. split; [by simplify_map_eq |].
    split; [by simplify_map_eq |].
    split; [by simplify_map_eq |].
    split; [intros; lia |].
    split; [split; [done | intros _; by simplify_map_eq] |].
    intros; by simplify_map_eq.
  - (* a range of lines *)
    split; [by simplify_map_eq |].
    split; [intros; by simplify_map_eq |].
    split; [split; [by simplify_map_eq | intros ?; contradiction] |].
    intros _. eexists. split; [by simplify_map_eq |].
    split; [by simplify_map_eq |].
    split; [by simplify_map_eq |].
    split; [intros; by simplify_map_eq |].
    split; [split; [by simplify_map_eq | intros; lia] |].
    intros; by simplify_map_eq.
Qed.

(** The validation error of each single-request operation, as a function
    of the arguments it depends on. *)
Lemma GetPullRequest_validation ctx workspace repoSlug id st :
  validationError (GetPullRequest ctx workspace repoSlug id st).1
  = if (workspace =? "")%string || (repoSlug =? "")%string
    then Some "workspace and repository slug are required"
    else None.
Proof.
  unfold GetPullRequest.
  destruct ((workspace =? "")%string || (repoSlug =? "")%string); [done |].
  apply (validationError_exchange servePullRequest).
Qed.

Lemma UpdatePullRequest_validation ctx workspace repoSlug id input st :
  validationError (UpdatePullRequest ctx workspace repoSlug id input st).1
  = if (workspace =? "")%string || (repoSlug =? "")%string
    then Some "workspace and repository slug are required"
    else if (size (updateBody input) =? 0)%nat
    then Some "at least one field (title or description) must be provided"
    else None.
Proof.
  unfold UpdatePullRequest.
  destruct ((workspace =? "")%string || (repoSlug =? "")%string); [done |].
  destruct (size (updateBody input) =? 0)%nat; [done |].
  apply (validationError_exchange servePullRequest).
Qed.

Lemma CommentPullRequest_validation ctx workspace repoSlug id opts st :
  validationError (CommentPullRequest ctx workspace repoSlug id opts st).1
  = if (workspace =? "")%string || (repoSlug =? "")%string
    then Some "workspace and repository slug are required"
    else if (strings.TrimSpace (Text opts) =? "")%string
    then Some "comment text is required"
    else validationError (commentPayload opts).
Proof.
  unfold CommentPullRequest.
  destruct ((workspace =? "")%string || (repoSlug =? "")%string); [done |].
  destruct (strings.TrimSpace (Text opts) =? "")%string; [done |].
  destruct (commentPayload opts) as [payload | e]; [| done].
  apply (validationError_exchange serveComment).
Qed.

Lemma CreatePullRequest_validation ctx workspace repoSlug input st :
  validationError (CreatePullRequest ctx workspace repoSlug input st).1
  = if (workspace =? "")%string || (repoSlug =? "")%string
    then Some "workspace and repository slug are required"
    else if (strings.TrimSpace (Title input) =? "")%string
    then Some "title is required"
    else if (strings.TrimSpace (Source input) =? "")%string
            || (strings.TrimSpace (Destination input) =? "")%string
    then Some "source and destination branches are required"
    else None.
Proof.
  unfold CreatePullRequest.
  destruct ((workspace =? "")%string || (repoSlug =? "")%string); [done |].
  destruct (strings.TrimSpace (Title input) =? "")%string; [done |].
  destruct ((strings.TrimSpace (Source input) =? "")%string
            || (strings.TrimSpace (Destination input) =? "")%string); [done |].
  apply (validationError_exchange servePullRequest).
Qed.

(** C10.  With an empty [FilePath], [CommentPullRequest] does not look at
    [Line] and [LineFrom]: whatever their values, the payload is the
    object with the single key [content] (no [inline] key), the call is
    the one made with any other pair of values, and its validation error,
    if any, is neither of the two line-geometry errors. *)
Theorem C10_general_comment_ignores_lines
    (ctx : Ctx) (workspace repoSlug : string) (id : Z)
    (opts : CommentPullRequestOptions) (st : NetState) :
  FilePath opts = "" →
  let run := CommentPullRequest ctx workspace repoSlug id opts st in
  commentPayload opts
  = Ok {[ "content" := AMap {[ "raw" := AString (Text opts) ]} ]}
  ∧ (∀ payload : gmap string any,
       commentPayload opts = Ok payload → payload !! "inline" = None)
  ∧ validationError run.1
    ≠ Some "line number must be positive when file path is specified"
  ∧ (∀ lineFrom line : Z,
       validationError run.1 ≠ Some (lineRangeError lineFrom line))
  ∧ (∀ line lineFrom : Z,
       CommentPullRequest ctx workspace repoSlug id
         {| Text := Text opts; FilePath := FilePath opts;
            Line := line; LineFrom := lineFrom |} st
       = run).
Proof.
  intros Hf run.
  pose proof (commentPayload_general opts Hf) as Hp.
  assert (validationError run.1 = None
          ∨ validationError run.1
            = Some "workspace and repository slug are required"
          ∨ validationError run.1 = Some "comment text is required") as Hv.
  { subst run. rewrite CommentPullRequest_validation, Hp.
    destruct ((workspace =? "")%string || (repoSlug =? "")%string); [auto |].
    destruct (strings.TrimSpace (Text opts) =? "")%string; auto. }
  split; [done |].
  split; [intros payload Hp'; rewrite Hp in Hp'; injection Hp' as <-;
          by simplify_map_eq |].
  split; [by destruct Hv as [-> | [-> | ->]] |].
  split.
  - intros lineFrom line. unfold lineRangeError.
    by destruct Hv as [-> | [-> | ->]].
  - intros line lineFrom. subst run. unfold CommentPullRequest.
    rewrite Hp. rewrite commentPayload_general by done. done.
Qed.

(** C9.  The pull request id is not validated.  For every id, zero and
    negative ones included: with a non-empty workspace and slug,
    [GetPullRequest] yields no validation error; so does
    [UpdatePullRequest] when at least one field is set, and
    [CommentPullRequest] when the text is non-blank and, if a file path is
    given, [Line > 0] and [LineFrom], if positive, is at most [Line]; and
    each of them then hands the transport the path that has the id
    printed in decimal, as it is, after [/pullrequests/].  Moreover the
    validation error of each operation is the same for every pair of ids,
    and the only validation errors are the workspace/slug one, the
    empty-payload one (update), the text one and the two line-geometry
    ones (comment). *)
Theorem C9_id_is_not_validated
    (ctx : Ctx) (workspace repoSlug : string) (id : Z) (st : NetState) :
  let required := "workspace and repository slug are required" in
  (* GetPullRequest *)
  ((∀ id' : Z,
      validationError (GetPullRequest ctx workspace repoSlug id st).1
      = validationError (GetPullRequest ctx workspace repoSlug id' st).1)
   ∧ (∀ msg,
        validationError (GetPullRequest ctx workspace repoSlug id st).1 = Some msg →
        msg = required)
   ∧ (validationError (GetPullRequest ctx workspace repoSlug id st).1 = None →
      GetPullRequest ctx workspace repoSlug id st
      = exchange servePullRequest ctx "GET"
          ("/repositories/" +:+ url.PathEscape workspace +:+ "/"
             +:+ url.PathEscape repoSlug +:+ "/pullrequests/" +:+ fmt.itoa id)
          None st)
   ∧ (workspace ≠ "" → repoSlug ≠ "" →
      validationError (GetPullRequest ctx workspace repoSlug id st).1 = None
      ∧ GetPullRequest ctx workspace repoSlug id st
        = exchange servePullRequest ctx "GET"
            ("/repositories/" +:+ url.PathEscape workspace +:+ "/"
               +:+ url.PathEscape repoSlug +:+ "/pullrequests/"
               +:+ fmt.itoa id)
            None st))
  (* UpdatePullRequest *)
  ∧ (∀ input,
       let run := UpdatePullRequest ctx workspace repoSlug id input st in
       (∀ id' : Z,
          validationError run.1
          = validationError
              (UpdatePullRequest ctx workspace repoSlug id' input st).1)
       ∧ (∀ msg,
            validationError run.1 = Some msg →
            msg = required
            ∨ msg = "at least one field (title or description) must be provided")
       ∧ (validationError run.1 = None →
          run = exchange servePullRequest ctx "PUT"
                  ("/repositories/" +:+ url.PathEscape workspace +:+ "/"
                     +:+ url.PathEscape repoSlug +:+ "/pullrequests/"
                     +:+ fmt.itoa id)
                  (Some (AMap (updateBody input))) st)
       ∧ (workspace ≠ "" → repoSlug ≠ "" →
          ¬ (upd_Title input = None ∧ upd_Description input = None) →
          validationError run.1 = None
          ∧ run = exchange servePullRequest ctx "PUT"
                    ("/repositories/" +:+ url.PathEscape workspace +:+ "/"
                       +:+ url.PathEscape repoSlug +:+ "/pullrequests/"
                       +:+ fmt.itoa id)
                    (Some (AMap (updateBody input))) st))
  (* CommentPullRequest *)
  ∧ (∀ opts,
       let run := CommentPullRequest ctx workspace repoSlug id opts st in
       (∀ id' : Z,
          validationError run.1
          = validationError
              (CommentPullRequest ctx workspace repoSlug id' opts st).1)
       ∧ (∀ msg,
            validationError run.1 = Some msg →
            msg = required
            ∨ msg = "comment text is required"
            ∨ msg = "line number must be positive when file path is specified"
            ∨ msg = lineRangeError (LineFrom opts) (Line opts))
       ∧ (validationError run.1 = None →
          ∃ payload,
            commentPayload opts = Ok payload
            ∧ run = exchange serveComment ctx "POST"
                      ("/repositories/" +:+ url.PathEscape workspace +:+ "/"
                         +:+ url.PathEscape repoSlug +:+ "/pullrequests/"
                         +:+ fmt.itoa id +:+ "/comments")
                      (Some (AMap payload)) st)
       ∧ (workspace ≠ "" → repoSlug ≠ "" →
          strings.TrimSpace (Text opts) ≠ "" →
          (FilePath opts ≠ "" →
           0 < Line opts ∧ (0 < LineFrom opts → LineFrom opts <= Line opts)) →
          validationError run.1 = None
          ∧ ∃ payload,
              commentPayload opts = Ok payload
              ∧ run = exchange serveComment ctx "POST"
                        ("/repositories/" +:+ url.PathEscape workspace +:+ "/"
                           +:+ url.PathEscape repoSlug +:+ "/pullrequests/"
                           +:+ fmt.itoa id +:+ "/comments")
                        (Some (AMap payload)) st)).
Proof.
  intros required.
  split; [| split].
  - split; [| split; [| split]].
    + intros id'. by rewrite !GetPullRequest_validation.
    + intros msg. rewrite GetPullRequest_validation.
      destruct ((workspace =? "")%string || (repoSlug =? "")%string);
        [| done].
      by intros [= <-].
    + rewrite GetPullRequest_validation.
      destruct (String.eqb_spec workspace "") as [Hw | Hw]; [done |].
      destruct (String.eqb_spec repoSlug "") as [Hr | Hr]; [done |].
      intros _. by apply GetPullRequest_exchange.
    + intros Hw Hr. rewrite GetPullRequest_exchange by done.
      split; [apply validationError_exchange | done].
  - intros input run. subst run. split; [| split; [| split]].
    + intros id'. by rewrite !UpdatePullRequest_validation.
    + intros msg. rewrite UpdatePullRequest_validation.
      destruct ((workspace =? "")%string || (repoSlug =? "")%string);
        [intros [= <-]; by left |].
      destruct (size (updateBody input) =? 0)%nat; [| done].
      intros [= <-]; by right.
    + rewrite UpdatePullRequest_validation.
      destruct (String.eqb_spec workspace "") as [Hw | Hw]; [done |].
      destruct (String.eqb_spec repoSlug "") as [Hr | Hr]; [done |]. simpl.
      destruct (size (updateBody input) =? 0)%nat eqn:Hsz; [done |].
      intros _. apply UpdatePullRequest_exchange; try done.
      intros Habsent. apply size_updateBody in Habsent. congruence.
    + intros Hw Hr Hset. rewrite UpdatePullRequest_exchange by done.
      split; [apply validationError_exchange | done].
  - intros opts run. subst run. split; [| split; [| split]].
    + intros id'. by rewrite !CommentPullRequest_validation.
    + intros msg. rewrite CommentPullRequest_validation.
      destruct ((workspace =? "")%string || (repoSlug =? "")%string);
        [intros [= <-]; by left |].
      destruct (strings.TrimSpace (Text opts) =? "")%string;
        [intros [= <-]; right; by left |].
      destruct (commentPayload_cases opts)
        as [[_ H] | [(_ & _ & H) | [(_ & _ & _ & _ & H)
           | [(_ & _ & _ & H) | (_ & _ & _ & _ & H)]]]];
        rewrite H; simpl; try done.
      * intros [= <-]. right; right; by left.
      * intros [= <-]. right; right; by right.
    + intros Hvalid.
      destruct (CommentPullRequest_valid _ _ _ _ _ _ Hvalid)
        as (Hw & Hr & Ht & payload & Hp).
      exists payload. split; [done |].
      by apply CommentPullRequest_exchange.
    + intros Hw Hr Ht Hgeometry.
      assert (∃ payload, commentPayload opts = Ok payload) as [payload Hp].
      { destruct (commentPayload_cases opts)
          as [[_ H] | [(Hf & Hl & _) | [(Hf & _ & Hlf & Hgt & _)
             | [(_ & _ & _ & H) | (_ & _ & _ & _ & H)]]]]; eauto.
        - destruct (Hgeometry Hf) as [Hpos _]. lia.
        - destruct (Hgeometry Hf) as [_ Hrange]. specialize (Hrange Hlf). lia. }
      rewrite (CommentPullRequest_exchange _ _ _ _ _ _ payload) by done.
      split; [apply validationError_exchange |].
      exists payload. by split.
Qed.

(* ===================================================================== *)
(** ** CreatePullRequest: the body read back *)
(* ===================================================================== *)

Lemma mapM_username (reviewers : list string) :
  mapM (λ reviewer : gmap string string, reviewer !! "username")
       (map (λ reviewer : string, ({[ "username" := reviewer ]} : gmap string string))
            reviewers)
  = Some reviewers.
Proof.
  induction reviewers as [| r rest IH]; [done |].
  simpl. rewrite lookup_singleton_eq. simpl. by rewrite IH.
Qed.

(** Reading back the body built from an input gives that input. *)
Lemma decode_createBody input : decodeCreateBody (createBody input) = Some input.
Proof.
  destruct input as [title description source destination closeSource reviewers].
  unfold createBody, decodeCreateBody; simpl.
  destruct (String.eqb_spec description "") as [-> | Hd];
    destruct reviewers as [| r rest]; simpl;
    simplify_map_eq; try done;
    rewrite ?lookup_singleton_eq; simpl;
    by rewrite ?mapM_username.
Qed.

(** C8.  If [CreatePullRequest] accepts an input (the call yields no
    validation error: workspace and slug are non-empty, title, source and
    destination are non-blank after trimming), then the body it hands to
    the transport decodes to an input, and [CreatePullRequest] accepts the
    decoded input as well, in every context and network state; the decoded
    input is in fact the input itself, so that it is built into the same
    body again. *)
Theorem C8_create_body_round_trip
    (ctx : Ctx) (workspace repoSlug : string)
    (input : CreatePullRequestInput) (st : NetState) :
  validationError (CreatePullRequest ctx workspace repoSlug input st).1 = None →
  CreatePullRequest ctx workspace repoSlug input st
  = exchange servePullRequest ctx "POST"
      ("/repositories/" +:+ url.PathEscape workspace +:+ "/"
         +:+ url.PathEscape repoSlug +:+ "/pullrequests")
      (Some (AMap (createBody input))) st
  ∧ ∃ decoded : CreatePullRequestInput,
      decodeCreateBody (createBody input) = Some decoded
      ∧ (∀ ctx' st',
           validationError
             (CreatePullRequest ctx' workspace repoSlug decoded st').1 = None)
      ∧ strings.TrimSpace (Title decoded) ≠ ""
      ∧ strings.TrimSpace (Source decoded) ≠ ""
      ∧ strings.TrimSpace (Destination decoded) ≠ ""
      ∧ decoded = input.
Proof.
  intros Hvalid.
  assert (∀ ctx' st',
            validationError
              (CreatePullRequest ctx' workspace repoSlug input st').1 = None)
    as Hany.
  { intros ctx' st'. rewrite CreatePullRequest_validation.
    by rewrite CreatePullRequest_validation in Hvalid. }
  rewrite CreatePullRequest_validation in Hvalid.
  destruct ((workspace =? "")%string || (repoSlug =? "")%string) eqn:Hguard;
    [done |].
  destruct (String.eqb_spec (strings.TrimSpace (Title input)) "") as [| Ht];
    [done |].
  destruct (String.eqb_spec (strings.TrimSpace (Source input)) "") as [| Hs];
    [done |].
  destruct (String.eqb_spec (strings.TrimSpace (Destination input)) "")
    as [| Hd]; [done |].
  split.
  - unfold CreatePullRequest. rewrite Hguard.
    by rewrite !eqb_empty_false by done.
  - exists input. rewrite decode_createBody. repeat split; done.
Qed.

(* ===================================================================== *)
(** ** ListPullRequests: page size and the page walk *)
(* ===================================================================== *)

(** One loop iteration, in terms of the page request it makes. *)
Lemma pageLoop_S fuel ctx limit path prs st :
  path ≠ "" →
  pageLoop (S fuel) ctx limit path prs st
  = match fetch ctx path st with
    | (Err e, st') => Some (Err e, st')
    | (Ok page, st') =>
        if (0 <? limit) && (limit <=? Z.of_nat (length (prs ++ Values page)))
        then Some (Ok (take (Z.to_nat limit) (prs ++ Values page)), st')
        else if (Next page =? "")%string
        then Some (Ok (prs ++ Values page), st')
        else match Parse (Next page) with
             | Failure detail => Some (Err (Foreign detail), st')
             | Success nextURL =>
                 pageLoop fuel ctx limit (RequestURI nextURL)
                   (prs ++ Values page) st'
             end
    end.
Proof.
  intros Hpath. simpl. rewrite eqb_empty_false by done.
  unfold fetch, exchange.
  destruct (NewRequest ctx "GET" path None) as [req | e]; [| done].
  destruct (Do servePage req st) as [[page | e] st']; [| done].
  destruct ((0 <? limit) && (limit <=? Z.of_nat (length (prs ++ Values page))));
    [done |].
  destruct (Next page =? "")%string; [done |].
  by destruct (Parse (Next page)).
Qed.

(** A page request sends at most one request, and exactly one when it
    brings back a page. *)
Lemma fetch_sent_le ctx path st r st' :
  fetch ctx path st = (r, st') →
  (length (sent st') ≤ length (sent st) + 1)%nat.
Proof.
  unfold fetch, exchange, NewRequest.
  destruct (requestFailure ctx path).
  - intros [= _ <-]. lia.
  - intros Hdo.
    pose proof (sent_Do servePage
                  {| req_method := "GET"; req_path := path; req_body := None |}
                  st) as Hs.
    rewrite Hdo in Hs. simpl in Hs. rewrite Hs, length_app. simpl. lia.
Qed.

Lemma fetch_sent_page ctx path st page st' :
  fetch ctx path st = (Ok page, st') →
  sent st' = sent st ++ [{| req_method := "GET"; req_path := path;
                            req_body := None |}].
Proof.
  unfold fetch, exchange, NewRequest.
  destruct (requestFailure ctx path); [done |].
  intros Hdo.
  pose proof (sent_Do servePage
                {| req_method := "GET"; req_path := path; req_body := None |}
                st) as Hs.
  by rewrite Hdo in Hs.
Qed.

Lemma items_cons page pages : items (page :: pages) = Values page ++ items pages.
Proof. done. Qed.

(** Without a positive limit the loop returns every page of the chain. *)
Lemma pageLoop_unlimited fuel ctx limit :
  limit <= 0 →
  ∀ path prs st pages st',
    serverPages fuel ctx path st = Some (pages, st') →
    pageLoop fuel ctx limit path prs st = Some (Ok (prs ++ items pages), st').
Proof.
  intros Hlimit.
  assert (∀ n : nat, (0 <? limit) && (limit <=? Z.of_nat n) = false) as Hcap.
  { intros n. by rewrite (proj2 (Z.ltb_ge 0 limit) Hlimit). }
  induction fuel as [| fuel IH]; intros path prs st pages st'.
  - simpl. destruct (String.eqb_spec path "") as [-> | Hpath]; [| done].
    intros [= <- <-]. by rewrite app_nil_r.
  - destruct (String.eqb_spec path "") as [-> | Hpath].
    { simpl. intros [= <- <-]. by rewrite app_nil_r. }
    rewrite pageLoop_S by done. simpl. rewrite eqb_empty_false by done.
    destruct (fetch ctx path st) as [[page | e] st1]; [| done].
    rewrite Hcap.
    destruct (Next page =? "")%string.
    { intros [= <- <-]. by rewrite items_cons, app_nil_r. }
    destruct (Parse (Next page)) as [nextURL | detail]; [| done].
    destruct (serverPages fuel ctx (RequestURI nextURL) st1)
      as [[rest st2] |] eqn:Hrest; [| done].
    intros [= <- <-].
    rewrite (IH _ (prs ++ Values page) _ _ _ Hrest).
    by rewrite items_cons, app_assoc.
Qed.

(** With a positive limit [n] the loop stops at the first page with which
    the accumulated count reaches [n], or at the end of the chain. *)
Lemma pageLoop_limited fuel ctx (n : nat) :
  (0 < n)%nat →
  ∀ path prs st pages st_end,
    (length prs < n)%nat →
    serverPages fuel ctx path st = Some (pages, st_end) →
    ∃ (k : nat) (st' : NetState),
      pageLoop fuel ctx (Z.of_nat n) path prs st
      = Some (Ok (take n (prs ++ items (take k pages))), st')
      ∧ (k ≤ length pages)%nat
      ∧ length (sent st') = (length (sent st) + k)%nat
      ∧ (∀ j, (j < k)%nat →
              (length prs + length (items (take j pages)) < n)%nat)
      ∧ ((n ≤ length prs + length (items (take k pages)))%nat
         ∨ k = length pages).
Proof.
  intros Hn.
  induction fuel as [| fuel IH]; intros path prs st pages st_end Hprs.
  - simpl. destruct (String.eqb_spec path "") as [-> | Hpath]; [| done].
    intros [= <- <-]. exists 0%nat, st. simpl.
    rewrite app_nil_r, take_ge by lia.
    split; [done |]. split; [lia |]. split; [lia |].
    split; [intros; lia | by right].
  - destruct (String.eqb_spec path "") as [-> | Hpath].
    { simpl. intros [= <- <-]. exists 0%nat, st. simpl.
      rewrite app_nil_r, take_ge by lia.
      split; [done |]. split; [lia |]. split; [lia |].
      split; [intros; lia | by right]. }
    rewrite pageLoop_S by done. simpl. rewrite eqb_empty_false by done.
    destruct (fetch ctx path st) as [[page | e] st1] eqn:Hfetch; [| done].
    pose proof (fetch_sent_page _ _ _ _ _ Hfetch) as Hsent.
    assert (length (sent st1) = (length (sent st) + 1)%nat) as Hlen
      by (rewrite Hsent, length_app; simpl; lia).
    rewrite Nat2Z.id.
    replace (0 <? Z.of_nat n) with true by (symmetry; apply Z.ltb_lt; lia).
    simpl.
    destruct (Z.leb_spec (Z.of_nat n) (Z.of_nat (length (prs ++ Values page))))
      as [Hreach | Hshort].
    + (* the limit is reached with this page *)
      intros Hpages.
      assert (∃ rest, pages = page :: rest) as [rest ->].
      { destruct (Next page =? "")%string; [injection Hpages as <- _; eauto |].
        destruct (Parse (Next page)) as [nextURL | detail]; [| done].
        destruct (serverPages fuel ctx (RequestURI nextURL) st1)
          as [[rest ?] |]; [| done].
        injection Hpages as <- _. eauto. }
      exists 1%nat, st1.
      rewrite length_app in Hreach.
      change (take 1 (page :: rest)) with [page].
      rewrite items_cons. change (items []) with (@nil PullRequest).
      rewrite app_nil_r.
      split; [done |]. split; [simpl; lia |]. split; [done |].
      split; [| left; lia].
      intros j Hj. assert (j = 0%nat) as -> by lia. simpl. lia.
    + rewrite length_app in Hshort.
      destruct (Next page =? "")%string.
      { intros [= <- <-]. exists 1%nat, st1.
        change (take 1 [page]) with [page].
        rewrite items_cons. change (items []) with (@nil PullRequest).
        rewrite app_nil_r.
        rewrite (take_ge (prs ++ Values page)) by (rewrite length_app; lia).
        split; [done |]. split; [simpl; lia |]. split; [done |].
        split; [| by right].
        intros j Hj. assert (j = 0%nat) as -> by lia. simpl. lia. }
      destruct (Parse (Next page)) as [nextURL | detail]; [| done].
      destruct (serverPages fuel ctx (RequestURI nextURL) st1)
        as [[rest st2] |] eqn:Hrest; [| done].
      intros [= <- <-].
      destruct (IH _ (prs ++ Values page) _ _ _
                  ltac:(rewrite length_app; lia) Hrest)
        as (k & st' & Hloop & Hk & Hsentk & Hbefore & Hstop).
      exists (S k), st'.
      change (take (S k) (page :: rest)) with (page :: take k rest).
      rewrite items_cons, Hloop, <- app_assoc.
      split; [done |]. split; [simpl; lia |]. split; [lia |].
      split.
      * intros [| j] Hj; [simpl; lia |].
        change (take (S j) (page :: rest)) with (page :: take j rest).
        rewrite items_cons, length_app.
        specialize (Hbefore j ltac:(lia)). rewrite length_app in Hbefore. lia.
      * destruct Hstop as [Hstop | ->]; [left | by right].
        rewrite !length_app in *. lia.
Qed.

(** A chain that ends within [n] requests stops the loop within [n]
    iterations, whatever the limit. *)
Lemma pageLoop_chain_ends n ctx limit :
  ∀ path prs st,
    chainEndsWithin n ctx path st = true →
    ∃ r st',
      pageLoop n ctx limit path prs st = Some (r, st')
      ∧ (length (sent st') ≤ length (sent st) + n)%nat.
Proof.
  induction n as [| n IH]; intros path prs st.
  - simpl. destruct (path =? "")%string; [| done].
    intros _. exists (Ok prs), st. split; [done | lia].
  - destruct (String.eqb_spec path "") as [-> | Hpath].
    { intros _. exists (Ok prs), st. split; [done | lia]. }
    rewrite pageLoop_S by done. simpl. rewrite eqb_empty_false by done.
    destruct (fetch ctx path st) as [[page | e] st1] eqn:Hfetch.
    2:{ intros _. exists (Err e), st1. split; [done |].
        pose proof (fetch_sent_le _ _ _ _ _ Hfetch). lia. }
    pose proof (fetch_sent_le _ _ _ _ _ Hfetch) as Hone.
    destruct ((0 <? limit)
              && (limit <=? Z.of_nat (length (prs ++ Values page)))).
    { intros _. eexists _, st1. split; [done | lia]. }
    destruct (Next page =? "")%string.
    { intros _. eexists _, st1. split; [done | lia]. }
    destruct (Parse (Next page)) as [nextURL | detail].
    2:{ intros _. eexists _, st1. split; [done | lia]. }
    intros Hends.
    destruct (IH _ (prs ++ Values page) _ Hends) as (r & st' & Hloop & Hle).
    exists r, st'. split; [done | lia].
Qed.

(** A positive limit that is reached at the [k]-th page of the chain stops
    the loop after exactly [k] requests, with exactly [limit] items. *)
Lemma pageLoop_limit_reached fuel ctx limit :
  0 < limit →
  ∀ path prs st k,
    pagesToLimit fuel ctx limit (length prs) path st = Some k →
    ∃ prs' st',
      pageLoop fuel ctx limit path prs st = Some (Ok prs', st')
      ∧ Z.of_nat (length prs') = limit
      ∧ length (sent st') = (length (sent st) + k)%nat
      ∧ (k ≤ fuel)%nat.
Proof.
  intros Hlimit.
  induction fuel as [| fuel IH]; intros path prs st k.
  - simpl. by destruct (path =? "")%string.
  - destruct (String.eqb_spec path "") as [-> | Hpath]; [done |].
    rewrite pageLoop_S by done. simpl. rewrite eqb_empty_false by done.
    destruct (fetch ctx path st) as [[page | e] st1] eqn:Hfetch; [| done].
    pose proof (fetch_sent_page _ _ _ _ _ Hfetch) as Hsent.
    assert (length (sent st1) = (length (sent st) + 1)%nat) as Hlen
      by (rewrite Hsent, length_app; simpl; lia).
    rewrite (proj2 (Z.ltb_lt 0 limit) Hlimit). simpl.
    rewrite <- length_app.
    destruct (Z.leb_spec limit (Z.of_nat (length (prs ++ Values page))))
      as [Hreach | Hshort].
    + intros [= <-]. eexists _, st1. split; [done |].
      split; [rewrite length_take; lia |]. split; [done | lia].
    + destruct (Next page =? "")%string; [done |].
      destruct (Parse (Next page)) as [nextURL | detail]; [| done].
      destruct (pagesToLimit fuel ctx limit (length (prs ++ Values page))
                  (RequestURI nextURL) st1) as [k' |] eqn:Hrest; [| done].
      simpl. intros [= <-].
      destruct (IH _ _ _ _ Hrest) as (prs' & st' & Hloop & Hcount & Hk & Hle).
      exists prs', st'. split; [done |]. split; [done |]. split; lia.
Qed.

Lemma listPath_nonempty workspace repoSlug opts :
  listPath workspace repoSlug opts ≠ "".
Proof. unfold listPath. discriminate. Qed.

Lemma ListPullRequests_pageLoop fuel ctx workspace repoSlug opts st :
  workspace ≠ "" → repoSlug ≠ "" →
  ListPullRequests fuel ctx workspace repoSlug opts st
  = pageLoop fuel ctx (Limit opts) (listPath workspace repoSlug opts) [] st.
Proof. intros Hw Hr. unfold ListPullRequests. by rewrite guard_passes. Qed.

(** C6.  The first query parameter is [pagelen], set to [Limit] when
    [0 < Limit <= 100] and to 20 otherwise (so for [Limit = 0] and for
    [Limit > 100]); the parameters are joined with [&] after
    [/repositories/<workspace>/<slug>/pullrequests?] to form the path of
    the first request.  With [Limit = 0] (indeed any [Limit <= 0]) no cap
    applies: whenever the server's chain of pages from that path ends,
    the call returns the items of all its pages, in order, having fetched
    every page of the chain. *)
Theorem C6_page_size_and_unbounded_walk
    (fuel : nat) (ctx : Ctx) (workspace repoSlug : string)
    (opts : PullRequestListOptions) (st : NetState) :
  workspace ≠ "" → repoSlug ≠ "" →
  let size := if (0 <? Limit opts) && (Limit opts <=? 100)
              then Limit opts else 20 in
  (∃ more, params opts = ("pagelen=" +:+ fmt.itoa size) :: more)
  ∧ (Limit opts = 0 ∨ 100 < Limit opts → size = 20)
  ∧ ListPullRequests fuel ctx workspace repoSlug opts st
    = pageLoop fuel ctx (Limit opts)
        ("/repositories/" +:+ url.PathEscape workspace +:+ "/"
           +:+ url.PathEscape repoSlug +:+ "/pullrequests?"
           +:+ strings.Join (params opts) "&") [] st
  ∧ (Limit opts <= 0 →
     ∀ pages st_end,
       serverPages fuel ctx (listPath workspace repoSlug opts) st
       = Some (pages, st_end) →
       ListPullRequests fuel ctx workspace repoSlug opts st
       = Some (Ok (items pages), st_end)).
Proof.
  intros Hw Hr size.
  assert (pageLen opts = size) as Hsize.
  { unfold pageLen, size.
    destruct (Z.leb_spec (Limit opts) 0), (Z.ltb_spec 100 (Limit opts)),
      (Z.ltb_spec 0 (Limit opts)), (Z.leb_spec (Limit opts) 100);
      simpl; lia. }
  split; [| split; [| split]].
  - unfold params. rewrite Hsize.
    destruct (negb (strings.TrimSpace (State opts) =? "")%string
              && negb (EqualFold (strings.TrimSpace (State opts)) "all"));
      destruct (negb (Mine opts =? "")%string); simpl; eauto.
  - unfold size. intros [-> | Hbig]; [done |].
    destruct (Z.ltb_spec 0 (Limit opts)), (Z.leb_spec (Limit opts) 100);
      simpl; lia.
  - by apply ListPullRequests_pageLoop.
  - intros Hzero pages st_end Hpages.
    rewrite ListPullRequests_pageLoop by done.
    by rewrite (pageLoop_unlimited _ _ _ Hzero _ [] _ _ _ Hpages).
Qed.

(** C2.  With [Limit = n > 0], whenever the server's chain of pages from
    the first path ends, the call returns the first [n] items of the
    chain, so [min n total] items, in server order.  It sends exactly [k]
    requests, where the first [k] pages are the shortest prefix of the
    chain whose item count reaches [n] (or the whole chain if none does):
    no proper prefix of them reaches [n], and the result consists of the
    items of these [k] pages cut to [n]. *)
Theorem C2_limit_truncates_and_stops
    (fuel : nat) (ctx : Ctx) (workspace repoSlug : string)
    (opts : PullRequestListOptions) (st : NetState)
    (pages : list pullRequestListPage) (st_end : NetState) :
  workspace ≠ "" → repoSlug ≠ "" →
  0 < Limit opts →
  serverPages fuel ctx (listPath workspace repoSlug opts) st
  = Some (pages, st_end) →
  let n := Z.to_nat (Limit opts) in
  ∃ (k : nat) (st' : NetState),
    ListPullRequests fuel ctx workspace repoSlug opts st
    = Some (Ok (take n (items pages)), st')
    ∧ length (take n (items pages)) = (n `min` length (items pages))%nat
    ∧ take n (items pages) = take n (items (take k pages))
    ∧ (k ≤ length pages)%nat
    ∧ length (sent st') = (length (sent st) + k)%nat
    ∧ (∀ j, (j < k)%nat → (length (items (take j pages)) < n)%nat)
    ∧ ((n ≤ length (items (take k pages)))%nat ∨ k = length pages).
Proof.
  intros Hw Hr Hlimit Hpages n.
  assert (0 < n)%nat as Hn by (unfold n; lia).
  destruct (pageLoop_limited fuel ctx n Hn _ [] _ _ _ ltac:(simpl; lia) Hpages)
    as (k & st' & Hloop & Hk & Hsent & Hbefore & Hstop).
  simpl in Hloop, Hbefore, Hstop.
  assert (take n (items pages) = take n (items (take k pages))) as Hsame.
  { destruct Hstop as [Hstop | ->]; [| by rewrite firstn_all].
    rewrite <- (take_drop k pages) at 1.
    unfold items at 1. rewrite fmap_app, concat_app.
    fold (items (take k pages)). by rewrite take_app_le. }
  exists k, st'.
  rewrite ListPullRequests_pageLoop by done.
  replace (Limit opts) with (Z.of_nat n) by (unfold n; lia).
  rewrite Hloop, Hsame.
  split; [done |].
  split; [rewrite <- Hsame; apply length_take |].
  done.
Qed.

(** C7.  The page walk terminates.  If the chain of next-references from
    the first path ends within [n] requests, or if the limit is positive
    and the accumulated count reaches it within [n] requests, then [n]
    units of fuel are enough: the call returns, having sent at most [n]
    requests.  In the second case it returns exactly [Limit] items after
    exactly the number of requests at which the count first reaches the
    limit, whether or not the chain ever ends. *)
Theorem C7_page_walk_terminates
    (n : nat) (ctx : Ctx) (workspace repoSlug : string)
    (opts : PullRequestListOptions) (st : NetState) :
  workspace ≠ "" → repoSlug ≠ "" →
  let path := listPath workspace repoSlug opts in
  chainEndsWithin n ctx path st = true
  ∨ (0 < Limit opts
     ∧ is_Some (pagesToLimit n ctx (Limit opts) 0 path st)) →
  ∃ r st',
    ListPullRequests n ctx workspace repoSlug opts st = Some (r, st')
    ∧ (length (sent st') ≤ length (sent st) + n)%nat
    ∧ (0 < Limit opts →
       ∀ k, pagesToLimit n ctx (Limit opts) 0 path st = Some k →
            ∃ prs, r = Ok prs
                   ∧ Z.of_nat (length prs) = Limit opts
                   ∧ length (sent st') = (length (sent st) + k)%nat).
Proof.
  intros Hw Hr path Hstops.
  rewrite ListPullRequests_pageLoop by done. fold path.
  assert (0 < Limit opts →
          ∀ k, pagesToLimit n ctx (Limit opts) 0 path st = Some k →
               ∃ prs st',
                 pageLoop n ctx (Limit opts) path [] st = Some (Ok prs, st')
                 ∧ Z.of_nat (length prs) = Limit opts
                 ∧ length (sent st') = (length (sent st) + k)%nat
                 ∧ (k ≤ n)%nat) as Hreached.
  { intros Hlimit k Hk.
    by apply (pageLoop_limit_reached n ctx (Limit opts) Hlimit path [] st k). }
  destruct Hstops as [Hends | [Hlimit [k Hk]]].
  - destruct (pageLoop_chain_ends n ctx (Limit opts) path [] st Hends)
      as (r & st' & Hloop & Hle).
    exists r, st'. split; [done |]. split; [done |].
    intros Hlimit k Hk.
    destruct (Hreached Hlimit k Hk) as (prs & st'' & Hloop' & Hcount & Hsent & _).
    rewrite Hloop in Hloop'. injection Hloop' as -> ->. eauto.
  - destruct (Hreached Hlimit k Hk) as (prs & st' & Hloop & Hcount & Hsent & Hle).
    exists (Ok prs), st'. split; [done |]. split; [lia |].
    intros _ k' Hk'. rewrite Hk in Hk'. injection Hk' as <-. eauto.
Qed.

End Properties.

(* ===================================================================== *)
(** ** The properties at concrete inputs *)
(* ===================================================================== *)

Lemma C5_witness :
  let st := Demo.start Demo.looping 0%nat in
  ("" = "" ∨ "repo" = "")
  ∧ GetPullRequest (C := Demo.looping) false "" "repo" 7 st
    = (Err (Errorf "workspace and repository slug are required"), st)
  ∧ ListPullRequests (C := Demo.looping) 0 false "" "repo" Demo.limit5 st
    = Some (Err (Errorf "workspace and repository slug are required"), st).
Proof.
  intros st.
  pose proof (C5_workspace_and_slug_required (C := Demo.looping)
                false "" "repo" st (or_introl eq_refl)) as H.
  cbv zeta in H. destruct H as (Hlist & Hget & _).
  split; [by left |]. split; [apply Hget | apply Hlist].
Defined.

Lemma C1_witness :
  let st := Demo.start Demo.looping 0%nat in
  let run := UpdatePullRequest (C := Demo.looping) false "ws" "repo" 7
               Demo.clearTitle st in
  "ws" ≠ "" ∧ "repo" ≠ ""
  ∧ validationError run.1 = None
  ∧ sent run.2
    = [{| req_method := "PUT"; req_path := "/repositories/ws/repo/pullrequests/7";
          req_body := Some (AMap {[ "title" := AString "" ]}) |}].
Proof.
  intros st run.
  assert ("ws" ≠ "") as Hw by done. assert ("repo" ≠ "") as Hr by done.
  pose proof (C1_update_payload_and_empty_check (C := Demo.looping)
                false "ws" "repo" 7 Demo.clearTitle st Hw Hr) as H.
  cbv zeta in H. destruct H as (_ & _ & _ & Hpresent).
  destruct Hpresent as [Hvalid Hrun]; [by intros [? _] |].
  split; [done |]. split; [done |]. split; [done |].
  subst run. rewrite Hrun. reflexivity.
Defined.

Lemma C3_witness :
  let st := Demo.start Demo.looping 0%nat in
  "ws" ≠ "" ∧ "repo" ≠ ""
  ∧ CommentPullRequest (C := Demo.looping) false "ws" "repo" 1
      Demo.invertedRange st
    = (Err (Errorf "line range start (20) must be less than or equal to end (10)"),
       st).
Proof.
  intros st.
  assert ("ws" ≠ "") as Hw by done. assert ("repo" ≠ "") as Hr by done.
  pose proof (C3_comment_validation_in_order (C := Demo.looping)
                false "ws" "repo" 1 Demo.invertedRange st Hw Hr) as H.
  cbv zeta in H. destruct H as (_ & _ & Hrange).
  split; [done |]. split; [done |].
  apply Hrange; [by vm_compute | done | done | done | done].
Defined.

(** C3 without the order of the checks fails: with a file path,
    [Line = 0] and [LineFrom = 5] the premises of the line-range case hold
    ([LineFrom > 0], [LineFrom > Line]), but the error is the one about the
    line number, not the one about the line range. *)
Lemma C3_counterexample :
  let st := Demo.start Demo.looping 0%nat in
  let opts := Demo.rangeWithoutLine in
  let run := CommentPullRequest (C := Demo.looping) false "ws" "repo" 1 opts st in
  FilePath opts ≠ "" ∧ LineFrom opts > 0 ∧ LineFrom opts > Line opts
  ∧ run.1
    ≠ Err (Errorf "line range start (5) must be less than or equal to end (0)")
  ∧ run = (Err (Errorf "line number must be positive when file path is specified"),
           st).
Proof.
  intros st opts run.
  split; [done |]. split; [done |]. split; [done |].
  split; [| reflexivity].
  vm_compute. intros H. discriminate H.
Defined.

Lemma C4_witness :
  let st := Demo.start Demo.looping 0%nat in
  validationError
    (CommentPullRequest (C := Demo.looping) false "ws" "repo" 1
       Demo.rangeComment st).1 = None
  ∧ ∃ payload inline : gmap string any,
      sent (CommentPullRequest (C := Demo.looping) false "ws" "repo" 1
              Demo.rangeComment st).2
      = [{| req_method := "POST";
            req_path := "/repositories/ws/repo/pullrequests/1/comments";
            req_body := Some (AMap payload) |}]
      ∧ payload !! "content"
        = Some (AMap {[ "raw" := AString "Refactor this block" ]})
      ∧ payload !! "inline" = Some (AMap inline)
      ∧ inline !! "path" = Some (AString "src/helper.go")
      ∧ inline !! "to" = Some (AInt 20)
      ∧ inline !! "from" = Some (AInt 10).
Proof.
  intros st.
  assert (validationError
            (CommentPullRequest (C := Demo.looping) false "ws" "repo" 1
               Demo.rangeComment st).1 = None) as Hvalid by reflexivity.
  split; [done |].
  destruct (C4_comment_payload (C := Demo.looping) false "ws" "repo" 1
              Demo.rangeComment st Hvalid)
    as (payload & Hrun & Hcontent & _ & _ & Hinline).
  destruct Hinline as (inline & Hi & Hpath & Hto & Hfrom & _); [done |].
  exists payload, inline. rewrite Hrun.
  split; [reflexivity |]. split; [done |]. split; [done |].
  split; [done |]. split; [done |]. by apply Hfrom.
Defined.

Lemma C10_witness :
  let st := Demo.start Demo.looping 0%nat in
  FilePath Demo.strayLines = ""
  ∧ commentPayload Demo.strayLines
    = Ok {[ "content" := AMap {[ "raw" := AString "Looks good!" ]} ]}
  ∧ validationError
      (CommentPullRequest (C := Demo.looping) false "ws" "repo" 1
         Demo.strayLines st).1
    ≠ Some "line number must be positive when file path is specified".
Proof.
  intros st.
  pose proof (C10_general_comment_ignores_lines (C := Demo.looping)
                false "ws" "repo" 1 Demo.strayLines st eq_refl) as H.
  cbv zeta in H. destruct H as (Hpayload & _ & Hline & _).
  split; [done |]. split; [apply Hpayload | apply Hline].
Defined.

Lemma C9_witness :
  let st := Demo.start Demo.looping 0%nat in
  "ws" ≠ "" ∧ "repo" ≠ ""
  ∧ validationError
      (GetPullRequest (C := Demo.looping) false "ws" "repo" (-5) st).1 = None
  ∧ sent (GetPullRequest (C := Demo.looping) false "ws" "repo" (-5) st).2
    = [{| req_method := "GET";
          req_path := "/repositories/ws/repo/pullrequests/-5";
          req_body := None |}]
  ∧ validationError
      (UpdatePullRequest (C := Demo.looping) false "ws" "repo" 0
         Demo.clearTitle st).1 = None
  ∧ sent (UpdatePullRequest (C := Demo.looping) false "ws" "repo" 0
            Demo.clearTitle st).2
    = [{| req_method := "PUT";
          req_path := "/repositories/ws/repo/pullrequests/0";
          req_body := Some (AMap {[ "title" := AString "" ]}) |}]
  ∧ validationError
      (CommentPullRequest (C := Demo.looping) false "ws" "repo" (-7)
         Demo.rangeComment st).1 = None
  ∧ ∃ payload,
      sent (CommentPullRequest (C := Demo.looping) false "ws" "repo" (-7)
              Demo.rangeComment st).2
      = [{| req_method := "POST";
            req_path := "/repositories/ws/repo/pullrequests/-7/comments";
            req_body := Some (AMap payload) |}].
Proof.
  intros st.
  assert ("ws" ≠ "") as Hw by done. assert ("repo" ≠ "") as Hr by done.
  split; [done |]. split; [done |].
  pose proof (C9_id_is_not_validated (C := Demo.looping)
                false "ws" "repo" (-5) st) as Hget.
  cbv zeta in Hget. destruct Hget as ((_ & _ & _ & Hget) & _).
  destruct (Hget Hw Hr) as [Hgv Hgrun].
  split; [done |]. split; [rewrite Hgrun; reflexivity |].
  pose proof (C9_id_is_not_validated (C := Demo.looping)
                false "ws" "repo" 0 st) as Hupd.
  cbv zeta in Hupd. destruct Hupd as (_ & Hupd & _).
  destruct (Hupd Demo.clearTitle) as (_ & _ & _ & Hupd').
  destruct (Hupd' Hw Hr) as [Huv Hurun]; [by intros [? _] |].
  split; [done |]. split; [rewrite Hurun; reflexivity |].
  pose proof (C9_id_is_not_validated (C := Demo.looping)
                false "ws" "repo" (-7) st) as Hcmt.
  cbv zeta in Hcmt. destruct Hcmt as (_ & _ & Hcmt).
  destruct (Hcmt Demo.rangeComment) as (_ & _ & _ & Hcmt').
  assert (strings.TrimSpace (Text Demo.rangeComment) ≠ "") as Ht
    by (vm_compute; discriminate).
  assert (FilePath Demo.rangeComment ≠ "" →
          0 < Line Demo.rangeComment
          ∧ (0 < LineFrom Demo.rangeComment →
             LineFrom Demo.rangeComment <= Line Demo.rangeComment)) as Hgeo.
  { intros _. split; [reflexivity |]. intros _. discriminate. }
  destruct (Hcmt' Hw Hr Ht Hgeo) as (Hcv & payload & _ & Hcrun).
  split; [exact Hcv |]. exists payload. rewrite Hcrun. reflexivity.
Defined.

Lemma C8_witness :
  let st := Demo.start Demo.looping 0%nat in
  validationError
    (CreatePullRequest (C := Demo.looping) false "ws" "repo"
       Demo.newPullRequest st).1 = None
  ∧ ∃ decoded,
      decodeCreateBody (createBody Demo.newPullRequest) = Some decoded
      ∧ validationError
          (CreatePullRequest (C := Demo.looping) false "ws" "repo" decoded st).1
        = None.
Proof.
  intros st.
  assert (validationError
            (CreatePullRequest (C := Demo.looping) false "ws" "repo"
               Demo.newPullRequest st).1 = None) as Hvalid by reflexivity.
  split; [done |].
  destruct (C8_create_body_round_trip (C := Demo.looping) false "ws" "repo"
              Demo.newPullRequest st Hvalid)
    as (_ & decoded & Hdecode & Hagain & _).
  exists decoded. split; [done | apply Hagain].
Defined.

Lemma C6_witness :
  let st := Demo.start Demo.paged20 0%nat in
  "ws" ≠ "" ∧ "repo" ≠ ""
  ∧ (∃ more, params (C := Demo.paged20) Demo.unlimited = "pagelen=20" :: more)
  ∧ ∃ st_end,
      ListPullRequests (C := Demo.paged20) 3 false "ws" "repo" Demo.unlimited st
      = Some (Ok (items Demo.pages), st_end).
Proof.
  intros st.
  assert ("ws" ≠ "") as Hw by done. assert ("repo" ≠ "") as Hr by done.
  pose proof (C6_page_size_and_unbounded_walk (C := Demo.paged20)
                3 false "ws" "repo" Demo.unlimited st Hw Hr) as H.
  cbv zeta in H. destruct H as (Hparams & _ & _ & Hwalk).
  split; [done |]. split; [done |]. split; [apply Hparams |].
  eexists. apply Hwalk; [done | reflexivity].
Defined.

Lemma C2_witness :
  let st := Demo.start Demo.paged5 0%nat in
  "ws" ≠ "" ∧ "repo" ≠ "" ∧ 0 < Limit Demo.limit5
  ∧ (∃ st_end,
       serverPages (C := Demo.paged5) 3 false
         (listPath (C := Demo.paged5) "ws" "repo" Demo.limit5) st
       = Some (Demo.pages, st_end))
  ∧ ∃ st',
      ListPullRequests (C := Demo.paged5) 3 false "ws" "repo" Demo.limit5 st
      = Some (Ok [Demo.pr 1; Demo.pr 2; Demo.pr 3; Demo.pr 4; Demo.pr 5], st').
Proof.
  intros st.
  assert ("ws" ≠ "") as Hw by done. assert ("repo" ≠ "") as Hr by done.
  assert (0 < Limit Demo.limit5) as Hlimit by done.
  split; [done |]. split; [done |]. split; [done |].
  split; [eexists; reflexivity |].
  destruct (C2_limit_truncates_and_stops (C := Demo.paged5)
              3 false "ws" "repo" Demo.limit5 st Demo.pages _ Hw Hr Hlimit
              eq_refl)
    as (k & st' & Hrun & _).
  exists st'. apply Hrun.
Defined.

Lemma C7_witness :
  let st := Demo.start Demo.looping 0%nat in
  "ws" ≠ "" ∧ "repo" ≠ ""
  ∧ chainEndsWithin (C := Demo.looping) 3 false
      (listPath (C := Demo.looping) "ws" "repo" Demo.limit5) st = false
  ∧ pagesToLimit (C := Demo.looping) 3 false 5 0
      (listPath (C := Demo.looping) "ws" "repo" Demo.limit5) st = Some 3%nat
  ∧ ∃ r st',
      ListPullRequests (C := Demo.looping) 3 false "ws" "repo" Demo.limit5 st
      = Some (r, st')
      ∧ (length (sent st') ≤ 3)%nat.
Proof.
  intros st.
  assert ("ws" ≠ "") as Hw by done. assert ("repo" ≠ "") as Hr by done.
  split; [done |]. split; [done |]. split; [reflexivity |].
  split; [reflexivity |].
  destruct (C7_page_walk_terminates (C := Demo.looping)
              3 false "ws" "repo" Demo.limit5 st Hw Hr)
    as (r & st' & Hrun & Hle & _).
  { right. split; [done |]. exists 3%nat. reflexivity. }
  exists r, st'. split; [done | apply Hle].
Defined.


(* ===================================================================== *)
(** ** Further properties of the operations *)
(* ===================================================================== *)

Section Further.
Context `{C : Collaborators}.

(** *** CreatePullRequest: validation and body *)

(** X1.  For a non-empty workspace and repository slug, [CreatePullRequest]
    checks the title before the branches: a title that is blank after
    trimming fails with "title is required", whatever the branches are; a
    non-blank title with a blank source or a blank destination fails with
    "source and destination branches are required"; in both cases nothing
    is sent.  These two and the workspace/slug error are the only
    validation errors of the operation. *)
Theorem create_validation_in_order
    (ctx : Ctx) (workspace repoSlug : string)
    (input : CreatePullRequestInput) (st : NetState) :
  workspace ≠ "" → repoSlug ≠ "" →
  let run := CreatePullRequest ctx workspace repoSlug input st in
  (strings.TrimSpace (Title input) = "" →
     run = (Err (Errorf "title is required"), st))
  ∧ (strings.TrimSpace (Title input) ≠ "" →
     strings.TrimSpace (Source input) = ""
     ∨ strings.TrimSpace (Destination input) = "" →
     run = (Err (Errorf "source and destination branches are required"), st))
  ∧ (strings.TrimSpace (Title input) ≠ "" →
     strings.TrimSpace (Source input) ≠ "" →
     strings.TrimSpace (Destination input) ≠ "" →
     validationError run.1 = None)
  ∧ (∀ msg, validationError run.1 = Some msg →
            msg = "title is required"
            ∨ msg = "source and destination branches are required").
Proof.
  intros Hw Hr run.
  split; [| split; [| split]].
  - intros Ht. subst run. unfold CreatePullRequest.
    rewrite guard_passes by done. by rewrite Ht.
  - intros Ht Hblank. subst run. unfold CreatePullRequest.
    rewrite guard_passes by done. rewrite (eqb_empty_false _ Ht).
    by rewrite (guard_rejects _ _ Hblank).
  - intros Ht Hs Hd. subst run. rewrite CreatePullRequest_validation.
    rewrite guard_passes by done. rewrite (eqb_empty_false _ Ht).
    by rewrite guard_passes.
  - intros msg. subst run. rewrite CreatePullRequest_validation.
    rewrite guard_passes by done.
    destruct (strings.TrimSpace (Title input) =? "")%string;
      [intros [= <-]; by left |].
    destruct ((strings.TrimSpace (Source input) =? "")%string
              || (strings.TrimSpace (Destination input) =? "")%string);
      [intros [= <-]; by right | done].
Qed.

(** X2.  The body of a creation request always has [title] (the title as
    given, not trimmed), [close_source_branch], [source.branch.name] and
    [destination.branch.name]; it has [description] exactly when the
    description is non-empty; it has [reviewers] exactly when the list is
    non-empty, and then one [{username: r}] object per reviewer, in the
    order given; it has no other key. *)
Theorem createBody_fields (input : CreatePullRequestInput) :
  let body := createBody input in
  body !! "title" = Some (AString (Title input))
  ∧ body !! "close_source_branch" = Some (ABool (CloseSource input))
  ∧ body !! "source"
    = Some (AMap {[ "branch" := AStringMap {[ "name" := Source input ]} ]})
  ∧ body !! "destination"
    = Some (AMap {[ "branch" := AStringMap {[ "name" := Destination input ]} ]})
  ∧ body !! "description"
    = (if decide (Description input = "") then None
       else Some (AString (Description input)))
  ∧ body !! "reviewers"
    = (if decide (Reviewers input = []) then None
       else Some (AStringMaps
                    ((λ r : string, ({[ "username" := r ]} : gmap string string))
                       <$> Reviewers input)))
  ∧ (∀ k : string,
       k ≠ "title" → k ≠ "close_source_branch" → k ≠ "source" →
       k ≠ "destination" → k ≠ "description" → k ≠ "reviewers" →
       body !! k = None).
Proof.
  destruct input as [title description source destination closeSource reviewers].
  unfold createBody; simpl.
  destruct (String.eqb_spec description "") as [-> | Hd];
    destruct reviewers as [| r rest]; simpl;
    repeat case_decide; try done;
    repeat split; intros; by simplify_map_eq.
Qed.

(** *** Validation errors, request failures and the transport's outcome *)

(** The loop never builds an error of its own. *)
Lemma pageLoop_foreign fuel ctx limit :
  ∀ path prs st r st',
    pageLoop fuel ctx limit path prs st = Some (r, st') →
    validationError r = None.
Proof.
  induction fuel as [| fuel IH]; intros path prs st r st'.
  - simpl. destruct (path =? "")%string; [| done]. by intros [= <- _].
  - destruct (String.eqb_spec path "") as [-> | Hpath].
    { simpl. by intros [= <- _]. }
    rewrite pageLoop_S by done.
    pose proof (validationError_exchange servePage ctx "GET" path None st)
      as Hfetch. fold (fetch ctx path st) in Hfetch.
    destruct (fetch ctx path st) as [[page | e] st1].
    2:{ by intros [= <- _]. }
    destruct ((0 <? limit)
              && (limit <=? Z.of_nat (length (prs ++ Values page))));
      [by intros [= <- _] |].
    destruct (Next page =? "")%string; [by intros [= <- _] |].
    destruct (Parse (Next page)) as [nextURL | detail];
      [apply IH | by intros [= <- _]].
Qed.

(** X3.  A validation error means that nothing happened on the network:
    whenever one of the five operations returns an error of the package's
    own making, the network state (remote world and requests sent) is the
    one the call started from.  For the listing the only such error is the
    workspace/slug one: the page walk never fails with a validation error. *)
Theorem validation_error_sends_nothing
    (ctx : Ctx) (workspace repoSlug : string) (st : NetState) :
  (∀ fuel opts r st' msg,
     ListPullRequests fuel ctx workspace repoSlug opts st = Some (r, st') →
     validationError r = Some msg →
     msg = "workspace and repository slug are required" ∧ st' = st)
  ∧ (∀ id msg,
       validationError (GetPullRequest ctx workspace repoSlug id st).1 = Some msg →
       (GetPullRequest ctx workspace repoSlug id st).2 = st)
  ∧ (∀ input msg,
       validationError (CreatePullRequest ctx workspace repoSlug input st).1
       = Some msg →
       (CreatePullRequest ctx workspace repoSlug input st).2 = st)
  ∧ (∀ id input msg,
       validationError (UpdatePullRequest ctx workspace repoSlug id input st).1
       = Some msg →
       (UpdatePullRequest ctx workspace repoSlug id input st).2 = st)
  ∧ (∀ id opts msg,
       validationError (CommentPullRequest ctx workspace repoSlug id opts st).1
       = Some msg →
       (CommentPullRequest ctx workspace repoSlug id opts st).2 = st).
Proof.
  split; [| split; [| split; [| split]]].
  - intros fuel opts r st' msg. unfold ListPullRequests.
    destruct ((workspace =? "")%string || (repoSlug =? "")%string).
    + by intros [= <- <-] [= <-].
    + intros Hloop Hv. apply pageLoop_foreign in Hloop. congruence.
  - intros id msg. unfold GetPullRequest.
    destruct ((workspace =? "")%string || (repoSlug =? "")%string); [done |].
    fold (exchange servePullRequest ctx "GET"
            (pullRequestPath workspace repoSlug id) None st).
    by rewrite validationError_exchange.
  - intros input msg. unfold CreatePullRequest.
    destruct ((workspace =? "")%string || (repoSlug =? "")%string); [done |].
    destruct (strings.TrimSpace (Title input) =? "")%string; [done |].
    destruct ((strings.TrimSpace (Source input) =? "")%string
              || (strings.TrimSpace (Destination input) =? "")%string);
      [done |].
    cbv zeta.
    match goal with
    | |- context [NewRequest ctx ?m ?p ?b] =>
        fold (exchange servePullRequest ctx m p b st)
    end.
    by rewrite validationError_exchange.
  - intros id input msg. unfold UpdatePullRequest.
    destruct ((workspace =? "")%string || (repoSlug =? "")%string); [done |].
    cbv zeta. destruct (size (updateBody input) =? 0)%nat; [done |].
    match goal with
    | |- context [NewRequest ctx ?m ?p ?b] =>
        fold (exchange servePullRequest ctx m p b st)
    end.
    by rewrite validationError_exchange.
  - intros id opts msg. unfold CommentPullRequest.
    destruct ((workspace =? "")%string || (repoSlug =? "")%string); [done |].
    destruct (strings.TrimSpace (Text opts) =? "")%string; [done |].
    destruct (commentPayload opts) as [payload | e]; [| done].
    cbv zeta.
    match goal with
    | |- context [NewRequest ctx ?m ?p ?b] =>
        fold (exchange serveComment ctx m p b st)
    end.
    by rewrite validationError_exchange.
Qed.

(** X4.  When the request of an operation cannot be built (the context
    is already cancelled, or the path of this request cannot be resolved),
    the operation, given valid input, returns the transport's error
    unchanged and sends nothing: the remote world is not contacted.  In
    the listing this holds in every loop iteration, for the path of that
    iteration, and the pull requests accumulated so far are dropped. *)
Theorem request_failure_sends_nothing
    (ctx : Ctx) (workspace repoSlug : string) (st : NetState) (detail : string) :
  workspace ≠ "" → repoSlug ≠ "" →
  let refused {T : Type} : Result T * NetState := (Err (Foreign detail), st) in
  (∀ fuel opts,
     requestFailure ctx (listPath workspace repoSlug opts) = Some detail →
     ListPullRequests (S fuel) ctx workspace repoSlug opts st
     = Some (Err (Foreign detail), st))
  ∧ (∀ fuel limit path prs,
       path ≠ "" →
       requestFailure ctx path = Some detail →
       pageLoop (S fuel) ctx limit path prs st
       = Some (Err (Foreign detail), st))
  ∧ (∀ id,
       requestFailure ctx (pullRequestPath workspace repoSlug id) = Some detail →
       GetPullRequest ctx workspace repoSlug id st = refused)
  ∧ (∀ input,
       strings.TrimSpace (Title input) ≠ "" →
       strings.TrimSpace (Source input) ≠ "" →
       strings.TrimSpace (Destination input) ≠ "" →
       requestFailure ctx
         ("/repositories/" +:+ url.PathEscape workspace +:+ "/"
            +:+ url.PathEscape repoSlug +:+ "/pullrequests") = Some detail →
       CreatePullRequest ctx workspace repoSlug input st = refused)
  ∧ (∀ id input,
       ¬ (upd_Title input = None ∧ upd_Description input = None) →
       requestFailure ctx (pullRequestPath workspace repoSlug id) = Some detail →
       UpdatePullRequest ctx workspace repoSlug id input st = refused)
  ∧ (∀ id opts payload,
       strings.TrimSpace (Text opts) ≠ "" →
       commentPayload opts = Ok payload →
       requestFailure ctx (commentPath workspace repoSlug id) = Some detail →
       CommentPullRequest ctx workspace repoSlug id opts st = refused).
Proof.
  intros Hw Hr refused.
  assert (∀ fuel limit path prs,
            path ≠ "" →
            requestFailure ctx path = Some detail →
            pageLoop (S fuel) ctx limit path prs st
            = Some (Err (Foreign detail), st)) as Hloop.
  { intros fuel limit path prs Hpath Hfail. rewrite pageLoop_S by done.
    unfold fetch. by rewrite (exchange_refused _ _ _ _ _ _ detail). }
  split; [| split; [| split; [| split; [| split]]]].
  - intros fuel opts Hfail. rewrite ListPullRequests_pageLoop by done.
    apply Hloop; [apply listPath_nonempty | done].
  - apply Hloop.
  - intros id Hfail. rewrite GetPullRequest_exchange by done.
    by apply exchange_refused.
  - intros input Ht Hs Hd Hfail.
    unfold CreatePullRequest. rewrite guard_passes by done.
    rewrite (eqb_empty_false _ Ht), (eqb_empty_false _ Hs),
      (eqb_empty_false _ Hd).
    simpl. unfold NewRequest. by rewrite Hfail.
  - intros id input Hset Hfail. rewrite UpdatePullRequest_exchange by done.
    by apply exchange_refused.
  - intros id opts payload Ht Hp Hfail.
    rewrite (CommentPullRequest_exchange _ _ _ _ _ _ payload) by done.
    by apply exchange_refused.
Qed.

(** X5.  When the input is valid and the request can be built, a
    single-request operation makes exactly one round trip and returns the
    transport's outcome as it is: the decoded value on success, the
    transport's error on failure; the request carries the method, the path
    and the body of the operation. *)
Theorem single_round_trip
    (ctx : Ctx) (workspace repoSlug : string) (id : Z) (st : NetState) :
  workspace ≠ "" → repoSlug ≠ "" →
  let answered {T : Type} (serve : Request → World → Outcome T * World)
        (req : Request) : Result T * NetState :=
    (propagate (serve req (world st)).1,
     {| world := (serve req (world st)).2; sent := sent st ++ [req] |}) in
  (requestFailure ctx (pullRequestPath workspace repoSlug id) = None →
   GetPullRequest ctx workspace repoSlug id st
   = answered servePullRequest
       {| req_method := "GET";
          req_path := pullRequestPath workspace repoSlug id;
          req_body := None |})
  ∧ (∀ input,
       let path := "/repositories/" +:+ url.PathEscape workspace +:+ "/"
                     +:+ url.PathEscape repoSlug +:+ "/pullrequests" in
       validationError (CreatePullRequest ctx workspace repoSlug input st).1 = None →
       requestFailure ctx path = None →
       CreatePullRequest ctx workspace repoSlug input st
       = answered servePullRequest
           {| req_method := "POST"; req_path := path;
              req_body := Some (AMap (createBody input)) |})
  ∧ (∀ input,
       validationError (UpdatePullRequest ctx workspace repoSlug id input st).1
       = None →
       requestFailure ctx (pullRequestPath workspace repoSlug id) = None →
       UpdatePullRequest ctx workspace repoSlug id input st
       = answered servePullRequest
           {| req_method := "PUT";
              req_path := pullRequestPath workspace repoSlug id;
              req_body := Some (AMap (updateBody input)) |})
  ∧ (∀ opts payload,
       strings.TrimSpace (Text opts) ≠ "" →
       commentPayload opts = Ok payload →
       requestFailure ctx (commentPath workspace repoSlug id) = None →
       CommentPullRequest ctx workspace repoSlug id opts st
       = answered serveComment
           {| req_method := "POST";
              req_path := commentPath workspace repoSlug id;
              req_body := Some (AMap payload) |}).
Proof.
  intros Hw Hr answered.
  assert (∀ (T : Type) (serve : Request → World → Outcome T * World)
            method path body,
            requestFailure ctx path = None →
            exchange serve ctx method path body st
            = answered T serve
                {| req_method := method; req_path := path; req_body := body |})
    as Hexchange.
  { intros T serve method path body Hbuilt.
    unfold exchange, NewRequest, Do, answered. rewrite Hbuilt.
    by destruct (serve _ (world st)). }
  split; [| split; [| split]].
  - intros Hbuilt. rewrite GetPullRequest_exchange by done.
    by apply Hexchange.
  - intros input path. rewrite CreatePullRequest_validation.
    unfold CreatePullRequest. rewrite guard_passes by done.
    destruct (strings.TrimSpace (Title input) =? "")%string; [done |].
    destruct ((strings.TrimSpace (Source input) =? "")%string
              || (strings.TrimSpace (Destination input) =? "")%string);
      [done |].
    intros _ Hbuilt. cbv zeta. fold path.
    fold (exchange servePullRequest ctx "POST" path
            (Some (AMap (createBody input))) st).
    by apply Hexchange.
  - intros input. rewrite UpdatePullRequest_validation.
    rewrite guard_passes by done.
    destruct (size (updateBody input) =? 0)%nat eqn:Hsize; [done |].
    intros _ Hbuilt. rewrite UpdatePullRequest_exchange; try done.
    + by apply Hexchange.
    + intros Habsent. apply size_updateBody in Habsent. congruence.
  - intros opts payload Ht Hp Hbuilt.
    rewrite (CommentPullRequest_exchange _ _ _ _ _ _ payload) by done.
    by apply Hexchange.
Qed.

(** *** UpdatePullRequest: the payload tells the three states apart *)

(** X6.  Two update inputs with the same payload are the same input: for
    each field the payload shows whether it is absent, set to the empty
    string or set to a non-empty string. *)
Theorem updateBody_injective (input input' : UpdatePullRequestInput) :
  updateBody input = updateBody input' → input = input'.
Proof.
  intros Hbody.
  pose proof (updateBody_title input) as Ht.
  pose proof (updateBody_description input) as Hd.
  rewrite Hbody, updateBody_title in Ht.
  rewrite Hbody, updateBody_description in Hd.
  destruct input as [t d], input' as [t' d']. simpl in *.
  f_equal.
  - destruct t, t'; simpl in Ht; congruence.
  - destruct d, d'; simpl in Hd; congruence.
Qed.

(** *** ListPullRequests: the query filters *)

(** X7.  The query of a listing has a [state=] parameter exactly when the
    state, trimmed, is non-empty and not [all] in any letter case, and its
    value is then the trimmed state in upper case, query-escaped; it has a
    [q=] parameter exactly when [Mine] is non-empty.  So a blank state, the
    state [all] and an empty [Mine] add no filter. *)
Theorem list_query_filters (opts : PullRequestListOptions) :
  let state := strings.TrimSpace (State opts) in
  ((∃ v, ("state=" +:+ v) ∈ params opts)
   ↔ state ≠ "" ∧ EqualFold state "all" = false)
  ∧ (∀ v, ("state=" +:+ v) ∈ params opts →
          v = url.QueryEscape (ToUpper state))
  ∧ ((∃ v, ("q=" +:+ v) ∈ params opts) ↔ Mine opts ≠ "")
  ∧ (∀ v, ("q=" +:+ v) ∈ params opts →
          v = url.QueryEscape
                ("author.username=" +:+ dquote +:+ Mine opts +:+ dquote))
  ∧ (state = "" ∨ EqualFold state "all" = true →
     Mine opts = "" →
     params opts = ["pagelen=" +:+ fmt.itoa (pageLen opts)]).
Proof.
  intros state. unfold params. fold state.
  assert (∀ v w : string, "state=" +:+ v ≠ "pagelen=" +:+ w) as Hsp
    by (intros v w; discriminate).
  assert (∀ v w : string, "state=" +:+ v ≠ "q=" +:+ w) as Hsq
    by (intros v w; discriminate).
  assert (∀ v w : string, "q=" +:+ v ≠ "pagelen=" +:+ w) as Hqp
    by (intros v w; discriminate).
  assert (∀ v w : string, "state=" +:+ v = "state=" +:+ w → v = w) as Hs
    by (intros v w H; by apply (inj (String.app "state=")) in H).
  assert (∀ v w : string, "q=" +:+ v = "q=" +:+ w → v = w) as Hq
    by (intros v w H; by apply (inj (String.app "q=")) in H).
  destruct (String.eqb_spec state "") as [Hstate | Hstate];
    destruct (EqualFold state "all") eqn:Hall;
    destruct (String.eqb_spec (Mine opts) "") as [Hmine | Hmine]; simpl;
    (split; [split; [intros [v Hv] | intros [? ?]] |
     split; [intros v Hv |
     split; [split; [intros [v Hv] | intros ?] |
     split; [intros v Hv | intros ? ?]]]]);
    repeat match goal with
      | H : _ ∈ _ |- _ =>
          apply elem_of_cons in H; destruct H as [H | H]
      | H : _ ∈ [] |- _ => by apply elem_of_nil in H
      | H : "state=" +:+ _ = "pagelen=" +:+ _ |- _ => by apply Hsp in H
      | H : "state=" +:+ _ = "q=" +:+ _ |- _ => by apply Hsq in H
      | H : "q=" +:+ _ = "state=" +:+ _ |- _ => symmetry in H; by apply Hsq in H
      | H : "q=" +:+ _ = "pagelen=" +:+ _ |- _ => by apply Hqp in H
      | H : "state=" +:+ _ = "state=" +:+ _ |- _ => apply Hs in H
      | H : "q=" +:+ _ = "q=" +:+ _ |- _ => apply Hq in H
      end;
    try done; try congruence;
    try (destruct_or!; congruence);
    try (eexists; rewrite !elem_of_cons;
         first [ by left | by right; left | by right; right; left ]).
Qed.

(** *** ListPullRequests: what a result says about the walk *)

(** Reading a chain of pages sends one request per page. *)
Lemma serverPages_sent fuel ctx :
  ∀ path st pages st',
    serverPages fuel ctx path st = Some (pages, st') →
    length (sent st') = (length (sent st) + length pages)%nat.
Proof.
  induction fuel as [| fuel IH]; intros path st pages st'; simpl.
  - destruct (path =? "")%string; [| done]. intros [= <- <-]. simpl. lia.
  - destruct (path =? "")%string; [intros [= <- <-]; simpl; lia |].
    destruct (fetch ctx path st) as [[page | e] st1] eqn:Hfetch; [| done].
    pose proof (fetch_sent_page _ _ _ _ _ Hfetch) as Hsent.
    assert (length (sent st1) = (length (sent st) + 1)%nat) as Hlen
      by (rewrite Hsent, length_app; simpl; lia).
    destruct (Next page =? "")%string; [intros [= <- <-]; simpl; lia |].
    destruct (Parse (Next page)) as [nextURL | detail]; [| done].
    destruct (serverPages fuel ctx (RequestURI nextURL) st1)
      as [[rest st2] |] eqn:Hrest; [| done].
    intros [= <- <-]. apply IH in Hrest. simpl. lia.
Qed.

(** Without a positive limit, a successful walk has read the whole chain. *)
Lemma pageLoop_unlimited_inv fuel ctx limit :
  limit <= 0 →
  ∀ path prs0 st prs st',
    pageLoop fuel ctx limit path prs0 st = Some (Ok prs, st') →
    ∃ pages,
      serverPages fuel ctx path st = Some (pages, st')
      ∧ prs = prs0 ++ items pages.
Proof.
  intros Hlimit.
  assert (∀ n : nat, (0 <? limit) && (limit <=? Z.of_nat n) = false) as Hcap.
  { intros n. by rewrite (proj2 (Z.ltb_ge 0 limit) Hlimit). }
  induction fuel as [| fuel IH]; intros path prs0 st prs st'.
  - simpl. destruct (path =? "")%string; [| done].
    intros [= <- <-]. exists []. by rewrite app_nil_r.
  - destruct (String.eqb_spec path "") as [-> | Hpath].
    { simpl. intros [= <- <-]. exists []. by rewrite app_nil_r. }
    rewrite pageLoop_S by done. simpl. rewrite eqb_empty_false by done.
    destruct (fetch ctx path st) as [[page | e] st1]; [| done].
    rewrite Hcap.
    destruct (Next page =? "")%string.
    { intros [= <- <-]. exists [page].
      by rewrite items_cons, app_nil_r. }
    destruct (Parse (Next page)) as [nextURL | detail]; [| done].
    intros Hloop. destruct (IH _ _ _ _ _ Hloop) as (rest & -> & ->).
    exists (page :: rest). by rewrite items_cons, app_assoc.
Qed.

(** With a positive limit, a successful walk returns at most [limit]
    items, and fewer only after reading the whole chain. *)
Lemma pageLoop_bound fuel ctx limit :
  0 < limit →
  ∀ path prs0 st prs st',
    Z.of_nat (length prs0) < limit →
    pageLoop fuel ctx limit path prs0 st = Some (Ok prs, st') →
    Z.of_nat (length prs) <= limit
    ∧ (Z.of_nat (length prs) < limit →
       ∃ pages,
         serverPages fuel ctx path st = Some (pages, st')
         ∧ prs = prs0 ++ items pages).
Proof.
  intros Hlimit.
  induction fuel as [| fuel IH]; intros path prs0 st prs st' Hprs0.
  - simpl. destruct (path =? "")%string; [| done].
    intros [= <- <-]. split; [lia |]. intros _. exists [].
    by rewrite app_nil_r.
  - destruct (String.eqb_spec path "") as [-> | Hpath].
    { simpl. intros [= <- <-]. split; [lia |]. intros _. exists [].
      by rewrite app_nil_r. }
    rewrite pageLoop_S by done. simpl. rewrite eqb_empty_false by done.
    destruct (fetch ctx path st) as [[page | e] st1]; [| done].
    rewrite (proj2 (Z.ltb_lt 0 limit) Hlimit). simpl.
    destruct (Z.leb_spec limit (Z.of_nat (length (prs0 ++ Values page))))
      as [Hreach | Hshort].
    { intros [= <- <-]. rewrite length_take. split; lia. }
    destruct (Next page =? "")%string.
    { intros [= <- <-]. split; [lia |]. intros _. exists [page].
      by rewrite items_cons, app_nil_r. }
    destruct (Parse (Next page)) as [nextURL | detail]; [| done].
    intros Hloop.
    destruct (IH _ _ _ _ _ Hshort Hloop) as [Hle Hless].
    split; [done |]. intros Hlt.
    destruct (Hless Hlt) as (rest & -> & ->).
    exists (page :: rest). by rewrite items_cons, app_assoc.
Qed.

(** X8.  A listing with a positive limit never returns more than [Limit]
    pull requests, whatever the server sends; and when it returns fewer,
    the server's chain of pages has been read to its end and the result is
    all its items: a short result means that there is nothing more. *)
Theorem list_limit_bound
    (fuel : nat) (ctx : Ctx) (workspace repoSlug : string)
    (opts : PullRequestListOptions) (st : NetState)
    (prs : list PullRequest) (st' : NetState) :
  0 < Limit opts →
  ListPullRequests fuel ctx workspace repoSlug opts st = Some (Ok prs, st') →
  Z.of_nat (length prs) <= Limit opts
  ∧ (Z.of_nat (length prs) < Limit opts →
     ∃ pages,
       serverPages fuel ctx (listPath workspace repoSlug opts) st
       = Some (pages, st')
       ∧ prs = items pages).
Proof.
  intros Hlimit. unfold ListPullRequests.
  destruct ((workspace =? "")%string || (repoSlug =? "")%string); [done |].
  intros Hloop.
  by apply (pageLoop_bound fuel ctx (Limit opts) Hlimit _ [] st prs st').
Qed.

(** X9.  A listing without a positive limit succeeds only if every page of
    the server's chain was fetched without a failure: its result is then
    the items of all these pages in order, nothing dropped and nothing
    added, and it has sent exactly one request per page. *)
Theorem list_unlimited_reads_whole_chain
    (fuel : nat) (ctx : Ctx) (workspace repoSlug : string)
    (opts : PullRequestListOptions) (st : NetState)
    (prs : list PullRequest) (st' : NetState) :
  Limit opts <= 0 →
  ListPullRequests fuel ctx workspace repoSlug opts st = Some (Ok prs, st') →
  ∃ pages,
    serverPages fuel ctx (listPath workspace repoSlug opts) st
    = Some (pages, st')
    ∧ prs = items pages
    ∧ length (sent st') = (length (sent st) + length pages)%nat.
Proof.
  intros Hlimit. unfold ListPullRequests.
  destruct ((workspace =? "")%string || (repoSlug =? "")%string); [done |].
  intros Hloop.
  destruct (pageLoop_unlimited_inv fuel ctx (Limit opts) Hlimit _ _ _ _ _ Hloop)
    as (pages & Hpages & ->).
  exists pages. split; [done |]. split; [done |].
  by apply serverPages_sent in Hpages.
Qed.

Lemma pageLoop_nonpositive fuel ctx limit limit' :
  limit <= 0 → limit' <= 0 →
  ∀ path prs st,
    pageLoop fuel ctx limit path prs st = pageLoop fuel ctx limit' path prs st.
Proof.
  intros Hl Hl'.
  induction fuel as [| fuel IH]; intros path prs st; [done |].
  destruct (String.eqb_spec path "") as [-> | Hpath]; [done |].
  rewrite !pageLoop_S by done.
  destruct (fetch ctx path st) as [[page | e] st1]; [| done].
  rewrite (proj2 (Z.ltb_ge 0 limit) Hl), (proj2 (Z.ltb_ge 0 limit') Hl').
  simpl. destruct (Next page =? "")%string; [done |].
  destruct (Parse (Next page)); [apply IH | done].
Qed.

(** X10.  A negative limit is no limit: a listing with [Limit <= 0] is, in
    its result, in the requests it sends and in their paths, the listing
    with [Limit = 0] and the same filters. *)
Theorem list_nonpositive_limit_is_zero
    (fuel : nat) (ctx : Ctx) (workspace repoSlug : string)
    (opts : PullRequestListOptions) (st : NetState) :
  Limit opts <= 0 →
  ListPullRequests fuel ctx workspace repoSlug opts st
  = ListPullRequests fuel ctx workspace repoSlug
      {| State := State opts; Limit := 0; Mine := Mine opts |} st.
Proof.
  intros Hlimit. unfold ListPullRequests.
  destruct ((workspace =? "")%string || (repoSlug =? "")%string); [done |].
  assert (listPath workspace repoSlug opts
          = listPath workspace repoSlug
              {| State := State opts; Limit := 0; Mine := Mine opts |}) as ->.
  { unfold listPath, params, pageLen. simpl.
    by rewrite (proj2 (Z.leb_le _ _) Hlimit). }
  simpl. by apply pageLoop_nonpositive.
Qed.

Lemma take_items_prefix (n k : nat) (pages : list pullRequestListPage) :
  (n ≤ length (items (take k pages)))%nat →
  take n (items pages) = take n (items (take k pages)).
Proof.
  intros Hn.
  rewrite <- (take_drop k pages) at 1.
  unfold items at 1. rewrite fmap_app, concat_app.
  fold (items (take k pages)). by rewrite take_app_le.
Qed.

(** X11.  From the same first path and network state, the walk with a
    positive limit returns the first [limit] items of what the walk
    without limit returns, and sends no more requests than it. *)
Theorem limited_walk_is_prefix
    (fuel : nat) (ctx : Ctx) (limit : Z) (path : string) (st : NetState)
    (all : list PullRequest) (st_all : NetState) :
  0 < limit →
  pageLoop fuel ctx 0 path [] st = Some (Ok all, st_all) →
  ∃ st',
    pageLoop fuel ctx limit path [] st
    = Some (Ok (take (Z.to_nat limit) all), st')
    ∧ (length (sent st') ≤ length (sent st_all))%nat.
Proof.
  intros Hlimit Hall.
  destruct (pageLoop_unlimited_inv fuel ctx 0 ltac:(lia) _ _ _ _ _ Hall)
    as (pages & Hpages & ->).
  simpl.
  destruct (pageLoop_limited fuel ctx (Z.to_nat limit) ltac:(lia)
              _ [] _ _ _ ltac:(simpl; lia) Hpages)
    as (k & st' & Hloop & Hk & Hsent & _ & Hstop).
  rewrite Z2Nat.id in Hloop by lia. simpl in Hloop, Hstop.
  exists st'. split.
  - rewrite Hloop. do 3 f_equal.
    destruct Hstop as [Hstop | ->]; [| by rewrite firstn_all].
    symmetry. by apply take_items_prefix.
  - apply serverPages_sent in Hpages. lia.
Qed.

(** A page request leaves the log as it is or adds its one request. *)
Lemma fetch_sent ctx path st r st' :
  fetch ctx path st = (r, st') →
  sent st' = sent st
  ∨ sent st' = sent st ++ [{| req_method := "GET"; req_path := path;
                              req_body := None |}].
Proof.
  unfold fetch, exchange, NewRequest.
  destruct (requestFailure ctx path).
  - intros [= _ <-]. by left.
  - intros Hdo. right.
    pose proof (sent_Do servePage
                  {| req_method := "GET"; req_path := path; req_body := None |}
                  st) as Hs.
    by rewrite Hdo in Hs.
Qed.

Lemma pageLoop_requests fuel ctx limit :
  ∀ path prs st r st',
    pageLoop fuel ctx limit path prs st = Some (r, st') →
    ∃ new,
      sent st' = sent st ++ new
      ∧ Forall (λ q, req_method q = "GET" ∧ req_body q = None) new
      ∧ (length new ≤ fuel)%nat
      ∧ (∀ q, head new = Some q → req_path q = path).
Proof.
  assert (∀ st : NetState,
            ∃ new : list Request,
              sent st = sent st ++ new
              ∧ Forall (λ q, req_method q = "GET" ∧ req_body q = None) new
              ∧ (length new ≤ 0)%nat
              ∧ (∀ q, head new = Some q → req_path q = "")) as Hnone.
  { intros st. exists []. by rewrite app_nil_r. }
  induction fuel as [| fuel IH]; intros path prs st r st'.
  - simpl. destruct (String.eqb_spec path "") as [-> | Hpath]; [| done].
    intros [= <- <-]. apply Hnone.
  - destruct (String.eqb_spec path "") as [-> | Hpath].
    { simpl. intros [= <- <-].
      destruct (Hnone st) as (new & ? & ? & ? & ?).
      exists new. repeat split; try done. lia. }
    rewrite pageLoop_S by done.
    destruct (fetch ctx path st) as [r1 st1] eqn:Hfetch.
    assert (∃ new1,
              sent st1 = sent st ++ new1
              ∧ Forall (λ q, req_method q = "GET" ∧ req_body q = None) new1
              ∧ (length new1 ≤ 1)%nat
              ∧ (∀ q, head new1 = Some q → req_path q = path)
              ∧ (∀ page, r1 = Ok page → new1 ≠ [])) as Hone.
    { destruct (fetch_sent _ _ _ _ _ Hfetch) as [Hs | Hs].
      - exists []. rewrite app_nil_r. repeat split; try done; try (simpl; lia).
        intros page ->. apply fetch_sent_page in Hfetch.
        rewrite Hs in Hfetch.
        apply (f_equal length) in Hfetch. rewrite length_app in Hfetch.
        simpl in Hfetch. lia.
      - eexists. split; [exact Hs |].
        split; [by repeat constructor |].
        split; [simpl; lia |]. split; [by intros q [= <-] | done]. }
    destruct Hone as (new1 & Hs1 & Hget1 & Hlen1 & Hhead1 & Hne1).
    assert (∃ new,
              sent st1 = sent st ++ new
              ∧ Forall (λ q, req_method q = "GET" ∧ req_body q = None) new
              ∧ (length new ≤ S fuel)%nat
              ∧ (∀ q, head new = Some q → req_path q = path)) as Hstop.
    { exists new1. repeat split; try done. lia. }
    destruct r1 as [page | e]; [| by intros [= <- <-]].
    destruct ((0 <? limit)
              && (limit <=? Z.of_nat (length (prs ++ Values page))));
      [by intros [= <- <-] |].
    destruct (Next page =? "")%string; [by intros [= <- <-] |].
    destruct (Parse (Next page)) as [nextURL | detail];
      [| by intros [= <- <-]].
    intros Hloop.
    destruct (IH _ _ _ _ _ Hloop) as (new & Hs & Hget & Hlen & _).
    exists (new1 ++ new). rewrite Hs, Hs1, app_assoc.
    split; [done |]. split; [by apply Forall_app |].
    split; [rewrite length_app; lia |].
    intros q. specialize (Hne1 page eq_refl).
    destruct new1 as [| q1 rest]; [done |]. simpl. apply Hhead1.
Qed.

(** X12.  A listing only reads: every request it sends is a GET without a
    body, added after the requests already sent; the first of them goes
    to the path built from workspace, slug and query parameters; and it
    sends at most one request per loop iteration. *)
Theorem list_sends_only_gets
    (fuel : nat) (ctx : Ctx) (workspace repoSlug : string)
    (opts : PullRequestListOptions) (st : NetState)
    (r : Result (list PullRequest)) (st' : NetState) :
  ListPullRequests fuel ctx workspace repoSlug opts st = Some (r, st') →
  ∃ new,
    sent st' = sent st ++ new
    ∧ Forall (λ q, req_method q = "GET" ∧ req_body q = None) new
    ∧ (length new ≤ fuel)%nat
    ∧ (∀ q, head new = Some q →
            req_path q = listPath workspace repoSlug opts).
Proof.
  unfold ListPullRequests.
  destruct ((workspace =? "")%string || (repoSlug =? "")%string).
  - intros [= <- <-]. exists []. rewrite app_nil_r.
    repeat split; try done. simpl. lia.
  - apply pageLoop_requests.
Qed.

(** *** CommentPullRequest: a range start that is not positive *)

(** X13.  A [LineFrom] that is zero or negative is ignored: the call is,
    in its validation, its payload and its request, the call with
    [LineFrom = 0], a comment on the single line [Line]. *)
Theorem comment_nonpositive_lineFrom_ignored
    (ctx : Ctx) (workspace repoSlug : string) (id : Z)
    (opts : CommentPullRequestOptions) (st : NetState) :
  LineFrom opts <= 0 →
  CommentPullRequest ctx workspace repoSlug id opts st
  = CommentPullRequest ctx workspace repoSlug id
      {| Text := Text opts; FilePath := FilePath opts;
         Line := Line opts; LineFrom := 0 |} st.
Proof.
  intros Hfrom.
  assert (commentPayload opts
          = commentPayload {| Text := Text opts; FilePath := FilePath opts;
                              Line := Line opts; LineFrom := 0 |}) as Hp.
  { unfold commentPayload. simpl.
    by rewrite (proj2 (Z.ltb_ge 0 (LineFrom opts)) Hfrom). }
  unfold CommentPullRequest. by rewrite Hp.
Qed.

End Further.

(* ===================================================================== *)
(** ** The further properties at concrete inputs *)
(* ===================================================================== *)

Lemma create_validation_in_order_witness :
  let st := Demo.start Demo.looping 0%nat in
  "ws" ≠ "" ∧ "repo" ≠ ""
  ∧ CreatePullRequest (C := Demo.looping) false "ws" "repo" Demo.blankTitle st
    = (Err (Errorf "title is required"), st).
Proof.
  intros st.
  assert ("ws" ≠ "") as Hw by done. assert ("repo" ≠ "") as Hr by done.
  pose proof (create_validation_in_order (C := Demo.looping)
                false "ws" "repo" Demo.blankTitle st Hw Hr) as H.
  cbv zeta in H. destruct H as (Hblank & _).
  split; [done |]. split; [done |]. apply Hblank. by vm_compute.
Defined.

Lemma createBody_fields_witness :
  createBody Demo.newPullRequest !! "description" = None
  ∧ createBody Demo.newPullRequest !! "reviewers"
    = Some (AStringMaps [ {[ "username" := "alice" ]};
                          {[ "username" := "bob" ]} ]).
Proof.
  pose proof (createBody_fields Demo.newPullRequest) as H.
  cbv zeta in H. destruct H as (_ & _ & _ & _ & Hd & Hrev & _).
  split; [apply Hd | apply Hrev].
Defined.

Lemma validation_error_sends_nothing_witness :
  let st := Demo.start Demo.looping 0%nat in
  validationError
    (CommentPullRequest (C := Demo.looping) false "ws" "repo" 1
       Demo.invertedRange st).1
  = Some "line range start (20) must be less than or equal to end (10)"
  ∧ (CommentPullRequest (C := Demo.looping) false "ws" "repo" 1
       Demo.invertedRange st).2 = st.
Proof.
  intros st.
  pose proof (validation_error_sends_nothing (C := Demo.looping)
                false "ws" "repo" st) as H.
  destruct H as (_ & _ & _ & _ & Hcomment).
  split; [reflexivity |].
  by apply (Hcomment 1 Demo.invertedRange
              "line range start (20) must be less than or equal to end (10)").
Defined.

Lemma request_failure_sends_nothing_witness :
  let st := Demo.start Demo.unresolvable 0%nat in
  "ws" ≠ "" ∧ "repo" ≠ ""
  ∧ requestFailure (Collaborators := Demo.unresolvable) false
      (pullRequestPath "ws" "repo" 7) = Some "cannot resolve path"
  ∧ requestFailure (Collaborators := Demo.unresolvable) false
      (pullRequestPath "ws" "repo" 8) = None
  ∧ GetPullRequest (C := Demo.unresolvable) false "ws" "repo" 7 st
    = (Err (Foreign "cannot resolve path"), st)
  ∧ UpdatePullRequest (C := Demo.unresolvable) false "ws" "repo" 7
      Demo.clearTitle st
    = (Err (Foreign "cannot resolve path"), st)
  ∧ pageLoop (C := Demo.unresolvable) 1 false 5
      "/repositories/ws/repo/pullrequests/7" [Demo.pr 1] st
    = Some (Err (Foreign "cannot resolve path"), st).
Proof.
  intros st.
  assert ("ws" ≠ "") as Hw by done. assert ("repo" ≠ "") as Hr by done.
  pose proof (request_failure_sends_nothing (C := Demo.unresolvable)
                false "ws" "repo" st "cannot resolve path" Hw Hr) as H.
  cbv zeta in H. destruct H as (_ & Hloop & Hget & _ & Hupdate & _).
  split; [done |]. split; [done |]. split; [reflexivity |].
  split; [reflexivity |].
  split; [apply Hget; reflexivity |].
  split; [apply Hupdate; [by intros [? _] | reflexivity] |].
  apply Hloop; [done | reflexivity].
Defined.

Lemma single_round_trip_witness :
  let st := Demo.start Demo.looping 0%nat in
  "ws" ≠ "" ∧ "repo" ≠ ""
  ∧ sent (UpdatePullRequest (C := Demo.looping) false "ws" "repo" 7
            Demo.clearTitle st).2
    = [{| req_method := "PUT"; req_path := "/repositories/ws/repo/pullrequests/7";
          req_body := Some (AMap (updateBody Demo.clearTitle)) |}]
  ∧ world (UpdatePullRequest (C := Demo.looping) false "ws" "repo" 7
             Demo.clearTitle st).2 = 1%nat.
Proof.
  intros st.
  assert ("ws" ≠ "") as Hw by done. assert ("repo" ≠ "") as Hr by done.
  pose proof (single_round_trip (C := Demo.looping)
                false "ws" "repo" 7 st Hw Hr) as H.
  cbv zeta in H. destruct H as (_ & _ & Hupdate & _).
  split; [done |]. split; [done |].
  rewrite (Hupdate Demo.clearTitle eq_refl eq_refl). by split.
Defined.

Lemma updateBody_injective_witness :
  let input := {| upd_Title := Some ""; upd_Description := None |} in
  updateBody Demo.clearTitle = updateBody input
  ∧ Demo.clearTitle = input.
Proof.
  intros input.
  assert (updateBody Demo.clearTitle = updateBody input) as Hsame
    by reflexivity.
  split; [done |].
  apply (updateBody_injective Demo.clearTitle input Hsame).
Defined.

Lemma list_query_filters_witness :
  ("state=" +:+ "OPEN") ∈ params (C := Demo.looping) Demo.filtered
  ∧ "OPEN" = url.QueryEscape
               (ToUpper (Collaborators := Demo.looping)
                  (strings.TrimSpace (State Demo.filtered))).
Proof.
  pose proof (list_query_filters (C := Demo.looping) Demo.filtered) as H.
  cbv zeta in H. destruct H as (_ & Hvalue & _).
  assert (("state=" +:+ "OPEN") ∈ params (C := Demo.looping) Demo.filtered)
    as Hin by (vm_compute; apply list_elem_of_further, list_elem_of_here).
  split; [done | by apply Hvalue].
Defined.

Lemma list_limit_bound_witness :
  let st := Demo.start Demo.paged5 0%nat in
  0 < Limit Demo.limit5
  ∧ ∃ prs st',
      ListPullRequests (C := Demo.paged5) 3 false "ws" "repo" Demo.limit5 st
      = Some (Ok prs, st')
      ∧ Z.of_nat (length prs) <= Limit Demo.limit5.
Proof.
  intros st. split; [done |].
  eexists _, _. split; [reflexivity |].
  by apply (list_limit_bound (C := Demo.paged5) 3 false "ws" "repo"
              Demo.limit5 st _ _ ltac:(done) eq_refl).
Defined.

Lemma list_unlimited_reads_whole_chain_witness :
  let st := Demo.start Demo.paged20 0%nat in
  Limit Demo.unlimited <= 0
  ∧ ∃ prs st' pages,
      ListPullRequests (C := Demo.paged20) 3 false "ws" "repo" Demo.unlimited st
      = Some (Ok prs, st')
      ∧ prs = items pages
      ∧ length (sent st') = length pages.
Proof.
  intros st. split; [done |].
  destruct (list_unlimited_reads_whole_chain (C := Demo.paged20)
              3 false "ws" "repo" Demo.unlimited st _ _ ltac:(done) eq_refl)
    as (pages & _ & Hprs & Hsent).
  eexists _, _, pages. split; [reflexivity |]. by split.
Defined.

Lemma list_nonpositive_limit_is_zero_witness :
  let st := Demo.start Demo.paged20 0%nat in
  Limit Demo.negativeLimit <= 0
  ∧ ListPullRequests (C := Demo.paged20) 3 false "ws" "repo"
      Demo.negativeLimit st
    = ListPullRequests (C := Demo.paged20) 3 false "ws" "repo"
        Demo.unlimited st.
Proof.
  intros st. split; [done |].
  by apply (list_nonpositive_limit_is_zero (C := Demo.paged20)
              3 false "ws" "repo" Demo.negativeLimit st).
Defined.

Lemma limited_walk_is_prefix_witness :
  let st := Demo.start Demo.paged5 0%nat in
  let path := "/repositories/ws/repo/pullrequests?pagelen=5" in
  0 < 5
  ∧ (∃ st_all,
       pageLoop (C := Demo.paged5) 3 false 0 path [] st
       = Some (Ok (items Demo.pages), st_all))
  ∧ ∃ st',
      pageLoop (C := Demo.paged5) 3 false 5 path [] st
      = Some (Ok (take 5 (items Demo.pages)), st').
Proof.
  intros st path. split; [done |].
  split; [eexists; reflexivity |].
  destruct (limited_walk_is_prefix (C := Demo.paged5) 3 false 5 path st
              (items Demo.pages) _ ltac:(done) eq_refl)
    as (st' & Hloop & _).
  by exists st'.
Defined.

Lemma list_sends_only_gets_witness :
  let st := Demo.start Demo.paged5 0%nat in
  ∃ r st' new,
    ListPullRequests (C := Demo.paged5) 3 false "ws" "repo" Demo.limit5 st
    = Some (r, st')
    ∧ sent st' = sent st ++ new
    ∧ Forall (λ q, req_method q = "GET" ∧ req_body q = None) new.
Proof.
  intros st.
  destruct (list_sends_only_gets (C := Demo.paged5) 3 false "ws" "repo"
              Demo.limit5 st _ _ eq_refl)
    as (new & Hsent & Hget & _).
  eexists _, _, new. split; [reflexivity |]. by split.
Defined.

Lemma comment_nonpositive_lineFrom_ignored_witness :
  let st := Demo.start Demo.looping 0%nat in
  LineFrom Demo.negativeLineFrom <= 0
  ∧ sent (CommentPullRequest (C := Demo.looping) false "ws" "repo" 1
            Demo.negativeLineFrom st).2
    = [{| req_method := "POST";
          req_path := "/repositories/ws/repo/pullrequests/1/comments";
          req_body :=
            Some (AMap (<[ "inline" :=
                             AMap {[ "path" := AString "src/main.go";
                                     "to" := AInt 42 ]} ]>
                          {[ "content" :=
                               AMap {[ "raw" := AString "Fix this" ]} ]})) |}].
Proof.
  intros st. split; [done |].
  rewrite (comment_nonpositive_lineFrom_ignored (C := Demo.looping)
             false "ws" "repo" 1 Demo.negativeLineFrom st ltac:(done)).
  reflexivity.
Defined.
